(** * hft-infra backend: waitlist and thoughts HTTP service

    A shallow embedding of [backend/server.js] (the Express application
    with its two mongoose models) and the properties of its request
    handlers.  The repository's other server file is the waitlist half of
    the same code, statement for statement; what is proved of the waitlist
    routes holds of it too.

    Conventions of the model.
    - A JavaScript string is a [string]: one [ascii] per UTF-16 code unit,
      restricted to the code units 0..255 (Latin-1), where
      [String.prototype.toLowerCase], [String.prototype.trim] and the regular
      expression class [\s] are given exactly below.
    - The document database behind mongoose is a record of two collections
      (in insertion order) and a flag telling whether the connection is up.
    - A handler is a function from the environment, the request and the
      database to a response and a database.  Code under [try] runs in a
      state-and-exception monad; [try_catch] is the [catch] clause.
    - [handle] runs a handler from its first line to its answer with no
      other activity in between.  POST /api/waitlist, the one handler that
      awaits the database more than once, is given a second time with the
      events between its awaits ([post_waitlist_awaits]). *)

From Stdlib Require Import String Ascii List ZArith NArith Bool Arith Lia.
From Stdlib Require Import Sorted Permutation.
Import ListNotations.
Local Open Scope string_scope.

Set Implicit Arguments.

(* ===================================================================== *)
(** ** JavaScript strings *)
(* ===================================================================== *)

Module JsString.

(** White space as [trim] and the class [\s] see it: TAB, LF, VT, FF, CR,
    SPACE and NBSP (the members below U+0100). *)
Definition isWhiteSpace (c : ascii) : bool :=
  let n := N_of_ascii c in
  ((9 <=? n) && (n <=? 13) || (n =? 32) || (n =? 160))%N.

(** [toLowerCase] on one code unit: A-Z and the Latin-1 capitals
    U+00C0..U+00DE (the multiplication sign U+00D7 apart) move up by 32. *)
Definition toLowerChar (c : ascii) : ascii :=
  let n := N_of_ascii c in
  if ((65 <=? n) && (n <=? 90)
      || (192 <=? n) && (n <=? 222) && negb (n =? 215))%N
  then ascii_of_N (n + 32) else c.

Fixpoint toLowerCase (s : string) : string :=
  match s with
  | EmptyString => EmptyString
  | String c r => String (toLowerChar c) (toLowerCase r)
  end.

Fixpoint trimStart (s : string) : string :=
  match s with
  | EmptyString => EmptyString
  | String c r => if isWhiteSpace c then trimStart r else s
  end.

Definition isEmpty (s : string) : bool :=
  match s with EmptyString => true | String _ _ => false end.

Fixpoint trimEnd (s : string) : string :=
  match s with
  | EmptyString => EmptyString
  | String c r =>
      let r' := trimEnd r in
      if isWhiteSpace c && isEmpty r' then EmptyString else String c r'
  end.

Definition trim (s : string) : string := trimEnd (trimStart s).

(** [s.replace(/x/g, by)] for a one-character pattern. *)
Fixpoint replaceAll (x : ascii) (by_ : string) (s : string) : string :=
  match s with
  | EmptyString => EmptyString
  | String c r =>
      if Ascii.eqb c x then by_ ++ replaceAll x by_ r
      else String c (replaceAll x by_ r)
  end.

Fixpoint all (p : ascii -> bool) (s : string) : bool :=
  match s with
  | EmptyString => true
  | String c r => p c && all p r
  end.

Definition contains (x : ascii) (s : string) : bool :=
  negb (all (fun c => negb (Ascii.eqb c x)) s).

(** A string that does not begin with white space. *)
Definition headed (s : string) : bool :=
  match s with
  | EmptyString => true
  | String c _ => negb (isWhiteSpace c)
  end.

End JsString.

(* ===================================================================== *)
(** ** Regular expressions *)
(* ===================================================================== *)

(** The fragment of JavaScript regular expressions the server uses:
    character classes, concatenation, alternation and iteration, matched
    against the whole subject (the patterns are anchored by [^] and [$]).
    Matching is by derivatives. *)
Module RegExp.

Inductive regex : Type :=
| Void
| Eps
| Cls (p : ascii -> bool)
| Cat (r1 r2 : regex)
| Alt (r1 r2 : regex)
| Star (r : regex).

Definition Plus (r : regex) : regex := Cat r (Star r).

Fixpoint nullable (r : regex) : bool :=
  match r with
  | Void => false
  | Eps => true
  | Cls _ => false
  | Cat r1 r2 => nullable r1 && nullable r2
  | Alt r1 r2 => nullable r1 || nullable r2
  | Star _ => true
  end.

Fixpoint deriv (c : ascii) (r : regex) : regex :=
  match r with
  | Void => Void
  | Eps => Void
  | Cls p => if p c then Eps else Void
  | Cat r1 r2 =>
      if nullable r1 then Alt (Cat (deriv c r1) r2) (deriv c r2)
      else Cat (deriv c r1) r2
  | Alt r1 r2 => Alt (deriv c r1) (deriv c r2)
  | Star r1 => Cat (deriv c r1) (Star r1)
  end.

(** [/^r$/.test(s)] *)
Fixpoint test (r : regex) (s : string) : bool :=
  match s with
  | EmptyString => nullable r
  | String c s' => test (deriv c r) s'
  end.

(** The class [[^\s@]]. *)
Definition notSpaceAt (c : ascii) : bool :=
  negb (JsString.isWhiteSpace c) && negb (Ascii.eqb c "@").

(** [/^[^\s@]+@[^\s@]+\.[^\s@]+$/], the pattern of both schemas and of the
    thoughts handler. *)
Definition emailPattern : regex :=
  Cat (Plus (Cls notSpaceAt))
   (Cat (Cls (Ascii.eqb "@"))
    (Cat (Plus (Cls notSpaceAt))
     (Cat (Cls (Ascii.eqb "."))
          (Plus (Cls notSpaceAt))))).

(** No string is in the language of [r], seen on the syntax. *)
Fixpoint void (r : regex) : bool :=
  match r with
  | Void => true
  | Eps => false
  | Cls _ => false
  | Cat r1 r2 => void r1 || void r2
  | Alt r1 r2 => void r1 && void r2
  | Star _ => false
  end.

(** Every class of [r] satisfies [Q]. *)
Fixpoint classes (Q : (ascii -> bool) -> Prop) (r : regex) : Prop :=
  match r with
  | Void | Eps => True
  | Cls p => Q p
  | Cat r1 r2 | Alt r1 r2 => classes Q r1 /\ classes Q r2
  | Star r1 => classes Q r1
  end.

(** The classes of [r] are all within [P]. *)
Definition within (P : ascii -> bool) (r : regex) : Prop :=
  classes (fun p => forall c, p c = true -> P c = true) r.

(** The classes of [r] do not tell [f c] from [c]. *)
Definition blind (f : ascii -> ascii) (r : regex) : Prop :=
  classes (fun p => forall c, p (f c) = p c) r.

End RegExp.

(* ===================================================================== *)
(** ** JavaScript values of a request body *)
(* ===================================================================== *)

(** A field of the parsed JSON body, as far as the handlers look at it:
    absent, [null], or a scalar.  (JSON numbers are kept as integers.) *)
Inductive jsval : Type :=
| JUndefined
| JNull
| JBool (b : bool)
| JNum (n : Z)
| JStr (s : string).

(** [!v] is [negb (truthy v)]. *)
Definition truthy (v : jsval) : bool :=
  match v with
  | JUndefined | JNull => false
  | JBool b => b
  | JNum n => negb (n =? 0)%Z
  | JStr s => negb (JsString.isEmpty s)
  end.

(** [v.length < 10]: only a string has a [length] among these values, and
    [undefined < 10] is false. *)
Definition length_lt (v : jsval) (k : nat) : bool :=
  match v with
  | JStr s => (String.length s <? k)%nat
  | _ => false
  end.

(** [a !== b] on header and environment values (a string or [undefined])
    is [negb (strict_eq a b)]. *)
Definition strict_eq (a b : option string) : bool :=
  match a, b with
  | None, None => true
  | Some x, Some y => String.eqb x y
  | _, _ => false
  end.

(** A value spliced into a template literal. *)
Definition template (o : option string) : string :=
  match o with Some s => s | None => "undefined" end.

(* ===================================================================== *)
(** ** Documents and the database *)
(* ===================================================================== *)

(** An [ObjectId], the key mongoose gives a document when it is built. *)
Definition ObjectId : Type := N.

(** The paths the two schemas declare, after the [_id] every document has.
    (mongoose keeps [__v], [createdAt] and [updatedAt] besides; no handler
    reads them and no answer shows them.) *)
Module WaitlistDoc.
Record t : Type := mk {
  _id : ObjectId;
  email : string;
  timestamp : Z;
  source : string;
  ipAddress : option string;
  userAgent : option string
}.
End WaitlistDoc.

Module ThoughtsDoc.
Record t : Type := mk {
  _id : ObjectId;
  email : option string;
  message : string;
  timestamp : Z;
  source : string;
  ipAddress : option string;
  userAgent : option string
}.
End ThoughtsDoc.

Record DB : Type := mkDB {
  connected : bool;
  waitlists : list WaitlistDoc.t;
  thoughts : list ThoughtsDoc.t
}.

(** Errors a handler body can throw. *)
Inductive Error : Type :=
| TypeError            (* a method called on a value that has none *)
| ValidationError      (* mongoose schema validation, at save *)
| DuplicateKeyError    (* E11000, the unique index *)
| ConnectionError.     (* the operation never reached the database *)

Inductive result (A : Type) : Type :=
| Ok (a : A)
| Throw (e : Error).
Arguments Throw {A} e.

(** Code under [try]: it reads and writes the database and may throw. *)
Definition M (A : Type) : Type := DB -> result A * DB.

Definition ret {A} (a : A) : M A := fun db => (Ok a, db).

Definition throw {A} (e : Error) : M A := fun db => (Throw e, db).

Definition bind {A B} (m : M A) (k : A -> M B) : M B :=
  fun db =>
    match m db with
    | (Ok a, db') => k a db'
    | (Throw e, db') => (Throw e, db')
    end.

Notation "x <- m ;; k" := (bind m (fun x => k))
  (at level 61, m at next level, right associativity).
Notation "m ;;; k" := (bind m (fun _ => k))
  (at level 61, right associativity).

(** A database operation: it fails when the connection is down at the time
    it runs. *)
Definition operation {A} (f : DB -> A * DB) : M A :=
  fun db =>
    if connected db then let (a, db') := f db in (Ok a, db')
    else (Throw ConnectionError, db).

(** [v.toLowerCase()] and [v.trim()] on a truthy body value. *)
Definition call_toLowerCase (v : jsval) : M string :=
  match v with
  | JStr s => ret (JsString.toLowerCase s)
  | _ => throw TypeError
  end.

Definition call_trim (v : jsval) : M string :=
  match v with
  | JStr s => ret (JsString.trim s)
  | _ => throw TypeError
  end.

(** [.sort({ timestamp: -1 })]: by insertion, later timestamps first. *)
Section Sort.
Variable A : Type.
Variable ts : A -> Z.

Fixpoint insert_desc (x : A) (l : list A) : list A :=
  match l with
  | [] => [x]
  | y :: r => if (ts y <=? ts x)%Z then x :: y :: r else y :: insert_desc x r
  end.

Definition sort_desc (l : list A) : list A := fold_right insert_desc [] l.

Definition desc (a b : A) : Prop := (ts b <= ts a)%Z.
End Sort.

(** The schema setters [lowercase: true, trim: true] of an email path. *)
Definition normalize_email (s : string) : string :=
  JsString.trim (JsString.toLowerCase s).

(* ===================================================================== *)
(** ** The mongoose models *)
(* ===================================================================== *)

Module Waitlist.
Import WaitlistDoc.

(** [new Waitlist({ email, ipAddress, userAgent })]: setters and defaults
    run when the document is built; [now] is what [Date.now] returns and
    [id] the [ObjectId] the driver draws for it.  The driver draws a new one
    each time, so the index on [_id] never refuses an insert and [save]
    below does not consult it. *)
Definition new (id : ObjectId) (email' : string) (ip ua : option string)
    (now : Z) : t :=
  {| _id := id;
     email := normalize_email email';
     timestamp := now;
     source := "landing-page";
     ipAddress := ip;
     userAgent := ua |}.

(** Schema validation: [required] and [match] on [email]. *)
Definition validate (d : t) : bool :=
  negb (JsString.isEmpty (email d)) && RegExp.test RegExp.emailPattern (email d).

(** [Waitlist.findOne({ email })].  The filter is cast by the schema, which
    runs the path's setters on it (mongoose 5 and later, the versions that
    have [countDocuments]). *)
Definition findOne (email' : string) : M (option t) :=
  operation (fun db =>
    (find (fun d => String.eqb (email d) (normalize_email email')) (waitlists db),
     db)).

(** [doc.save()]: validation, then the insert, which the unique index on
    [email] refuses for a key already present. *)
Definition save (d : t) : M unit :=
  if negb (validate d) then throw ValidationError
  else
    fun db =>
      if negb (connected db) then (Throw ConnectionError, db)
      else if existsb (fun d' => String.eqb (email d') (email d)) (waitlists db)
      then (Throw DuplicateKeyError, db)
      else (Ok tt, mkDB (connected db) (waitlists db ++ [d]) (thoughts db)).

Definition countDocuments : M nat :=
  operation (fun db => (List.length (waitlists db), db)).

(** An entry with that normalized email is in the collection. *)
Definition has (email' : string) (db : DB) : bool :=
  existsb (fun d => String.eqb (email d) (normalize_email email')) (waitlists db).

(** [Waitlist.find().sort({ timestamp: -1 })] *)
Definition find_sorted : M (list t) :=
  operation (fun db => (sort_desc timestamp (waitlists db), db)).

(** What [.select('email timestamp source')] keeps of a document: the
    paths it names and, the projection being an inclusive one, [_id]. *)
Record view : Type := mkView {
  v_id : ObjectId;
  v_email : string;
  v_timestamp : Z;
  v_source : string
}.

Definition select (d : t) : view :=
  {| v_id := _id d; v_email := email d;
     v_timestamp := timestamp d; v_source := source d |}.

End Waitlist.

Module Thoughts.
Import ThoughtsDoc.

(** The setters of [email] leave [null] alone. *)
Definition new (id : ObjectId) (email' : option string) (message' : string)
    (ip ua : option string) (now : Z) : t :=
  {| _id := id;
     email := option_map normalize_email email';
     message := JsString.trim message';
     timestamp := now;
     source := "landing-page";
     ipAddress := ip;
     userAgent := ua |}.

(** Schema validation: [match] on [email] (skipped for [null] and the empty
    string), [required] and [minlength: 10] on [message]. *)
Definition validate (d : t) : bool :=
  match email d with
  | None => true
  | Some e => JsString.isEmpty e || RegExp.test RegExp.emailPattern e
  end
  && negb (JsString.isEmpty (message d))
  && (10 <=? String.length (message d))%nat.

Definition save (d : t) : M unit :=
  if negb (validate d) then throw ValidationError
  else
    operation (fun db =>
      (tt, mkDB (connected db) (waitlists db) (thoughts db ++ [d]))).

Definition countDocuments : M nat :=
  operation (fun db => (List.length (thoughts db), db)).

Definition find_sorted : M (list t) :=
  operation (fun db => (sort_desc timestamp (thoughts db), db)).

(** What [.select('email message timestamp source')] keeps: the named
    paths and [_id]. *)
Record view : Type := mkView {
  v_id : ObjectId;
  v_email : option string;
  v_message : string;
  v_timestamp : Z;
  v_source : string
}.

Definition select (d : t) : view :=
  {| v_id := _id d; v_email := email d; v_message := message d;
     v_timestamp := timestamp d; v_source := source d |}.

End Thoughts.

(* ===================================================================== *)
(** ** Requests, responses, the environment *)
(* ===================================================================== *)

(** [process.env] and the host: the admin key (unset is [None]) and how the
    host renders a date, [new Date(t).toLocaleString()], which depends on
    its locale and time zone. *)
Record Env : Type := mkEnv {
  ADMIN_API_KEY : option string;
  toLocaleString : Z -> string
}.

(** What a handler reads of [req], the clock at the time it runs and the
    [ObjectId] drawn for the document it builds. *)
Record Request : Type := mkRequest {
  body_email : jsval;            (* req.body.email *)
  body_message : jsval;          (* req.body.message *)
  ip : option string;            (* req.ip *)
  user_agent : option string;    (* req.headers['user-agent'] *)
  x_api_key : option string;     (* req.headers['x-api-key'] *)
  now : Z;                       (* Date.now() *)
  object_id : ObjectId           (* the _id of new Waitlist / new Thoughts *)
}.

Inductive Listing : Type :=
| WaitlistData (l : list Waitlist.view)
| ThoughtsData (l : list Thoughts.view).

(** A response body: the JSON object of the API (a field that is [None] is
    not in the object), the JSON of the health check, or text. *)
Inductive Body : Type :=
| Json (success : bool) (message : option string) (count : option nat)
       (data : option Listing)
| HealthJson (status message : string)
| Text (text : string).

Record Response : Type := mkResponse {
  status : nat;
  headers : list (string * string);
  body : Body
}.

(** [res.status(code).json({ success, message })] *)
Definition reply (code : nat) (success : bool) (message : string) : Response :=
  mkResponse code [] (Json success (Some message) None None).

(** How a handler ends: with a response, or with an error nobody caught. *)
Inductive Outcome : Type :=
| Responded (r : Response)
| Unhandled (e : Error).

(** [try { body } catch (error) { handler }] *)
Definition try_catch (body' : M Response) (handler : Error -> Response)
  : DB -> Outcome * DB :=
  fun db =>
    match body' db with
    | (Ok r, db') => (Responded r, db')
    | (Throw e, db') => (Responded (handler e), db')
    end.

(** A handler without [try]. *)
Definition no_catch (body' : M Response) : DB -> Outcome * DB :=
  fun db =>
    match body' db with
    | (Ok r, db') => (Responded r, db')
    | (Throw e, db') => (Unhandled e, db')
    end.

(* ===================================================================== *)
(** ** The routes *)
(* ===================================================================== *)

Definition LF : string := String "010" EmptyString.
Definition DQ : string := String "034" EmptyString.

(** POST /api/waitlist, the code under [try]. *)
Definition post_waitlist_body (req : Request) : M Response :=
  let email := body_email req in
  if negb (truthy email) then ret (reply 400 false "Email is required")
  else
    lowered <- call_toLowerCase email ;;
    existingEmail <- Waitlist.findOne lowered ;;
    match existingEmail with
    | Some _ => ret (reply 409 false "This email is already registered")
    | None =>
        lowered' <- call_toLowerCase email ;;
        let waitlistEntry :=
          Waitlist.new (object_id req) lowered' (ip req) (user_agent req)
            (now req) in
        Waitlist.save waitlistEntry ;;;
        totalCount <- Waitlist.countDocuments ;;
        ret (mkResponse 201 []
               (Json true (Some "Successfully added to waitlist")
                     (Some totalCount) None))
    end.

Definition post_waitlist_catch (_ : Error) : Response :=
  reply 500 false "Server error. Please try again.".

(** POST /api/thoughts, the code under [try]. *)
Definition post_thoughts_body (req : Request) : M Response :=
  let email := body_email req in
  let message := body_message req in
  if negb (truthy message) then ret (reply 400 false "Message is required")
  else if length_lt message 10 then
    ret (reply 400 false "Message must be at least 10 characters long")
  else
    normalizedEmail <-
      (if truthy email
       then lowered <- call_toLowerCase email ;; ret (Some (JsString.trim lowered))
       else ret None) ;;
    if match normalizedEmail with
       | Some e => negb (JsString.isEmpty e)
                   && negb (RegExp.test RegExp.emailPattern e)
       | None => false
       end
    then ret (reply 400 false "Invalid email format")
    else
      trimmed <- call_trim message ;;
      let thoughtsEntry :=
        Thoughts.new (object_id req) normalizedEmail trimmed (ip req)
          (user_agent req) (now req) in
      Thoughts.save thoughtsEntry ;;;
      ret (reply 201 true "Successfully saved your thoughts").

(** The email of a thoughts submission passes the handler: it is falsy, or a
    string whose normal form is empty or matches the pattern. *)
Definition email_passes (v : jsval) : bool :=
  match v with
  | JStr s =>
      JsString.isEmpty (normalize_email s)
      || RegExp.test RegExp.emailPattern (normalize_email s)
  | _ => negb (truthy v)
  end.

(** The [normalizedEmail] of the handler, for an email that passes. *)
Definition normalized_email (v : jsval) : option string :=
  match v with
  | JStr s => if JsString.isEmpty s then None else Some (normalize_email s)
  | _ => None
  end.

Definition post_thoughts_catch (_ : Error) : Response :=
  reply 500 false "Server error. Please try again.".

(** GET /api/waitlist/count and GET /api/thoughts/count *)
Definition count_body (countDocuments : M nat) : M Response :=
  count <- countDocuments ;;
  ret (mkResponse 200 [] (Json true None (Some count) None)).

Definition server_error (_ : Error) : Response :=
  reply 500 false "Server error".

(** The guard of the four admin routes:
    [if (apiKey !== process.env.ADMIN_API_KEY) return 401]. *)
Definition admin_guard (env : Env) (req : Request) (k : M Response)
  : M Response :=
  let apiKey := x_api_key req in
  if negb (strict_eq apiKey (ADMIN_API_KEY env))
  then ret (reply 401 false "Unauthorized")
  else k.

(** GET /api/waitlist/all *)
Definition get_waitlist_all_body (env : Env) (req : Request) : M Response :=
  admin_guard env req
    (docs <- Waitlist.find_sorted ;;
     let emails := map Waitlist.select docs in
     ret (mkResponse 200 []
            (Json true None (Some (List.length emails))
                  (Some (WaitlistData emails))))).

(** GET /api/thoughts/all *)
Definition get_thoughts_all_body (env : Env) (req : Request) : M Response :=
  admin_guard env req
    (docs <- Thoughts.find_sorted ;;
     let found := map Thoughts.select docs in
     ret (mkResponse 200 []
            (Json true None (Some (List.length found))
                  (Some (ThoughtsData found))))).

(** One line of the waitlist export. *)
Definition waitlist_row (env : Env) (entry : WaitlistDoc.t) : string :=
  let date := toLocaleString env (WaitlistDoc.timestamp entry) in
  WaitlistDoc.email entry ++ "," ++ date ++ "," ++ WaitlistDoc.source entry
    ++ "," ++ template (WaitlistDoc.ipAddress entry) ++ LF.

Definition waitlist_header : string :=
  "Email,Signup Date,Source,IP Address" ++ LF.

(** [let csv = header; entries.forEach(entry => { csv += row })] *)
Definition build_csv {A} (header : string) (row : A -> string)
    (entries : list A) : string :=
  fold_left (fun csv entry => csv ++ row entry) entries header.

Definition csv_response (filename : string) (csv : string) : Response :=
  mkResponse 200
    [("Content-Type", "text/csv");
     ("Content-Disposition", "attachment; filename=" ++ filename)]
    (Text csv).

(** GET /api/waitlist/export *)
Definition get_waitlist_export_body (env : Env) (req : Request) : M Response :=
  admin_guard env req
    (emails <- Waitlist.find_sorted ;;
     ret (csv_response "waitlist.csv"
            (build_csv waitlist_header (waitlist_row env) emails))).

(** [entry.email || ''] *)
Definition email_or_empty (e : option string) : string :=
  match e with Some s => s | None => EmptyString end.

(** The [replace] of the thoughts export: every double quote of the message
    (character 34) becomes two. *)
Definition escape_quotes (s : string) : string :=
  JsString.replaceAll "034" (DQ ++ DQ) s.

Definition quoted (s : string) : string := DQ ++ s ++ DQ.

(** The cells of a line of the thoughts export, before quoting. *)
Definition thoughts_cells (env : Env) (entry : ThoughtsDoc.t) : list string :=
  [ email_or_empty (ThoughtsDoc.email entry);
    ThoughtsDoc.message entry;
    toLocaleString env (ThoughtsDoc.timestamp entry);
    ThoughtsDoc.source entry;
    template (ThoughtsDoc.ipAddress entry) ].

(** One line of the thoughts export: every cell between quotes, the quotes
    of the message doubled. *)
Definition thoughts_row (env : Env) (entry : ThoughtsDoc.t) : string :=
  let date := toLocaleString env (ThoughtsDoc.timestamp entry) in
  quoted (email_or_empty (ThoughtsDoc.email entry)) ++ ","
    ++ quoted (escape_quotes (ThoughtsDoc.message entry)) ++ ","
    ++ quoted date ++ ","
    ++ quoted (ThoughtsDoc.source entry) ++ ","
    ++ quoted (template (ThoughtsDoc.ipAddress entry)) ++ LF.

Definition thoughts_header : string :=
  "Email,Message,Date,Source,IP Address" ++ LF.

(** A string without a double quote. *)
Definition no_quote (s : string) : bool :=
  JsString.all (fun c => negb (Ascii.eqb c "034")) s.

(** The cells of an entry that the export copies as they are hold no double
    quote. *)
Definition plain_cells (env : Env) (entry : ThoughtsDoc.t) : bool :=
  no_quote (email_or_empty (ThoughtsDoc.email entry))
  && no_quote (toLocaleString env (ThoughtsDoc.timestamp entry))
  && no_quote (ThoughtsDoc.source entry)
  && no_quote (template (ThoughtsDoc.ipAddress entry)).

(** GET /api/thoughts/export *)
Definition get_thoughts_export_body (env : Env) (req : Request) : M Response :=
  admin_guard env req
    (found <- Thoughts.find_sorted ;;
     ret (csv_response "thoughts.csv"
            (build_csv thoughts_header (thoughts_row env) found))).

(** GET /health *)
Definition get_health_body : M Response :=
  ret (mkResponse 200 [] (HealthJson "ok" "Server is running")).

Inductive Route : Type :=
| PostWaitlist
| PostThoughts
| GetWaitlistCount
| GetThoughtsCount
| GetWaitlistAll
| GetThoughtsAll
| GetWaitlistExport
| GetThoughtsExport
| GetHealth.

(** The code of a route (under its [try], where it has one). *)
Definition route_body (r : Route) (env : Env) (req : Request) : M Response :=
  match r with
  | PostWaitlist => post_waitlist_body req
  | PostThoughts => post_thoughts_body req
  | GetWaitlistCount => count_body Waitlist.countDocuments
  | GetThoughtsCount => count_body Thoughts.countDocuments
  | GetWaitlistAll => get_waitlist_all_body env req
  | GetThoughtsAll => get_thoughts_all_body env req
  | GetWaitlistExport => get_waitlist_export_body env req
  | GetThoughtsExport => get_thoughts_export_body env req
  | GetHealth => get_health_body
  end.

(** The handler registered for a route. *)
Definition handle (r : Route) (env : Env) (req : Request)
  : DB -> Outcome * DB :=
  match r with
  | PostWaitlist => try_catch (post_waitlist_body req) post_waitlist_catch
  | PostThoughts => try_catch (post_thoughts_body req) post_thoughts_catch
  | GetWaitlistCount => try_catch (count_body Waitlist.countDocuments) server_error
  | GetThoughtsCount => try_catch (count_body Thoughts.countDocuments) server_error
  | GetWaitlistAll => try_catch (get_waitlist_all_body env req) server_error
  | GetThoughtsAll => try_catch (get_thoughts_all_body env req) server_error
  | GetWaitlistExport => try_catch (get_waitlist_export_body env req) server_error
  | GetThoughtsExport => try_catch (get_thoughts_export_body env req) server_error
  | GetHealth => no_catch get_health_body
  end.

(** *** Between two awaits

    A handler gives way at each [await] and resumes when the database has
    answered; meanwhile other requests are served and the connection can
    drop or come back.  Every handler has one [await] but POST /api/waitlist,
    which has three: [findOne], [save], [countDocuments].  [handle] runs it
    with nothing in between; below is the same code with what happens
    between the first and the second, and between the second and the
    third. *)
Inductive Event : Type :=
| WaitlistInsert (d : WaitlistDoc.t)    (* the insert of another request *)
| ThoughtsInsert (d : ThoughtsDoc.t)
| Disconnected                          (* the connection drops *)
| Reconnected.                          (* the connection is back *)

Definition happen (db : DB) (e : Event) : DB :=
  match e with
  | WaitlistInsert d => mkDB (connected db) (waitlists db ++ [d]) (thoughts db)
  | ThoughtsInsert d => mkDB (connected db) (waitlists db) (thoughts db ++ [d])
  | Disconnected => mkDB false (waitlists db) (thoughts db)
  | Reconnected => mkDB true (waitlists db) (thoughts db)
  end.

(** The database after the events, in their order. *)
Definition after (events : list Event) (db : DB) : DB :=
  fold_left happen events db.

Definition meanwhile (events : list Event) : M unit :=
  fun db => (Ok tt, after events db).

(** POST /api/waitlist, the code under [try], with the events between its
    awaits. *)
Definition post_waitlist_awaits (req : Request) (events1 events2 : list Event)
  : M Response :=
  let email := body_email req in
  if negb (truthy email) then ret (reply 400 false "Email is required")
  else
    lowered <- call_toLowerCase email ;;
    existingEmail <- Waitlist.findOne lowered ;;
    meanwhile events1 ;;;
    match existingEmail with
    | Some _ => ret (reply 409 false "This email is already registered")
    | None =>
        lowered' <- call_toLowerCase email ;;
        let waitlistEntry :=
          Waitlist.new (object_id req) lowered' (ip req) (user_agent req)
            (now req) in
        Waitlist.save waitlistEntry ;;;
        meanwhile events2 ;;;
        totalCount <- Waitlist.countDocuments ;;
        ret (mkResponse 201 []
               (Json true (Some "Successfully added to waitlist")
                     (Some totalCount) None))
    end.

Definition handle_post_waitlist_awaits (req : Request)
    (events1 events2 : list Event) : DB -> Outcome * DB :=
  try_catch (post_waitlist_awaits req events1 events2) post_waitlist_catch.

Definition is_admin (r : Route) : bool :=
  match r with
  | GetWaitlistAll | GetThoughtsAll | GetWaitlistExport | GetThoughtsExport => true
  | _ => false
  end.

(** [docs] are all the documents of [coll], none before a later one. *)
Definition latest_first {A} (ts : A -> Z) (coll docs : list A) : Prop :=
  Permutation docs coll /\ StronglySorted (desc ts) docs.

(** What a response carries. *)
Definition success_of (r : Response) : option bool :=
  match body r with Json s _ _ _ => Some s | _ => None end.

Definition data_of (r : Response) : option Listing :=
  match body r with Json _ _ _ d => d | _ => None end.

Definition text_of (r : Response) : option string :=
  match body r with Text t => Some t | _ => None end.

(** A listed record set against a stored document: the identifier and the
    selected paths, one by one. *)
Definition listed_waitlist (v : Waitlist.view) (d : WaitlistDoc.t) : Prop :=
  Waitlist.v_id v = WaitlistDoc._id d
  /\ Waitlist.v_email v = WaitlistDoc.email d
  /\ Waitlist.v_timestamp v = WaitlistDoc.timestamp d
  /\ Waitlist.v_source v = WaitlistDoc.source d.

Definition listed_thought (v : Thoughts.view) (d : ThoughtsDoc.t) : Prop :=
  Thoughts.v_id v = ThoughtsDoc._id d
  /\ Thoughts.v_email v = ThoughtsDoc.email d
  /\ Thoughts.v_message v = ThoughtsDoc.message d
  /\ Thoughts.v_timestamp v = ThoughtsDoc.timestamp d
  /\ Thoughts.v_source v = ThoughtsDoc.source d.

(** What an admin route owes a request it lets in, written out path by path
    and character by character, not through the functions of the handlers:
    all the documents of the collection, latest first; in a listing a record
    for each, with their number; in an export the header and then a line for
    each, under the headers of a download. *)
Definition whole_collection (r : Route) (env : Env) (db : DB)
    (resp : Response) : Prop :=
  match r with
  | GetWaitlistAll =>
      exists docs views,
        latest_first WaitlistDoc.timestamp (waitlists db) docs
        /\ Forall2 listed_waitlist views docs
        /\ headers resp = []
        /\ body resp =
             Json true None (Some (List.length (waitlists db)))
                  (Some (WaitlistData views))
  | GetThoughtsAll =>
      exists docs views,
        latest_first ThoughtsDoc.timestamp (thoughts db) docs
        /\ Forall2 listed_thought views docs
        /\ headers resp = []
        /\ body resp =
             Json true None (Some (List.length (thoughts db)))
                  (Some (ThoughtsData views))
  | GetWaitlistExport =>
      let line (d : WaitlistDoc.t) :=
        WaitlistDoc.email d ++ ","
          ++ toLocaleString env (WaitlistDoc.timestamp d) ++ ","
          ++ WaitlistDoc.source d ++ ","
          ++ match WaitlistDoc.ipAddress d with
             | Some a => a
             | None => "undefined"
             end
          ++ LF in
      exists docs,
        latest_first WaitlistDoc.timestamp (waitlists db) docs
        /\ headers resp =
             [("Content-Type", "text/csv");
              ("Content-Disposition", "attachment; filename=waitlist.csv")]
        /\ body resp =
             Text ("Email,Signup Date,Source,IP Address" ++ LF
                   ++ String.concat EmptyString (map line docs))
  | GetThoughtsExport =>
      let line (d : ThoughtsDoc.t) :=
        DQ ++ match ThoughtsDoc.email d with
              | Some e => e
              | None => EmptyString
              end ++ DQ ++ ","
          ++ DQ ++ JsString.replaceAll "034" (DQ ++ DQ) (ThoughtsDoc.message d)
          ++ DQ ++ ","
          ++ DQ ++ toLocaleString env (ThoughtsDoc.timestamp d) ++ DQ ++ ","
          ++ DQ ++ ThoughtsDoc.source d ++ DQ ++ ","
          ++ DQ ++ match ThoughtsDoc.ipAddress d with
                   | Some a => a
                   | None => "undefined"
                   end ++ DQ
          ++ LF in
      exists docs,
        latest_first ThoughtsDoc.timestamp (thoughts db) docs
        /\ headers resp =
             [("Content-Type", "text/csv");
              ("Content-Disposition", "attachment; filename=thoughts.csv")]
        /\ body resp =
             Text ("Email,Message,Date,Source,IP Address" ++ LF
                   ++ String.concat EmptyString (map line docs))
  | _ => False
  end.

(* ===================================================================== *)
(** ** Startup: the connection with retries *)
(* ===================================================================== *)

Inductive StartupEvent : Type :=
| Connect                 (* await mongoose.connect(uri) *)
| LogConnected
| LogConnectionError
| SetTimeout (ms : Z)     (* setTimeout(() => connectDB(retries - 1), ms) *)
| LogMaxRetries
| ProcessExit (code : Z). (* process.exit(code) *)

(** [connectDB(retries)].  [reachable k] tells whether the [k]-th call of
    [mongoose.connect] since startup succeeds; [k] counts the calls made
    so far.  The result is what happened and whether a connection is up. *)
Fixpoint connectDB (reachable : nat -> bool) (k : nat) (retries : nat)
  : list StartupEvent * bool :=
  if reachable k then ([Connect; LogConnected], true)
  else
    match retries with
    | S retries' =>
        let (trace, up) := connectDB reachable (S k) retries' in
        (Connect :: LogConnectionError :: SetTimeout 5000 :: trace, up)
    | O => ([Connect; LogConnectionError; LogMaxRetries], false)
    end.

(** [connectDB()] at the top of the file: [retries = 3]. *)
Definition startup (reachable : nat -> bool) : list StartupEvent * bool :=
  connectDB reachable 0 3.

Definition is_connect (e : StartupEvent) : bool :=
  match e with Connect => true | _ => false end.

Definition is_exit (e : StartupEvent) : bool :=
  match e with ProcessExit _ => true | _ => false end.

Definition timers (trace : list StartupEvent) : list Z :=
  flat_map (fun e => match e with SetTimeout ms => [ms] | _ => [] end) trace.

(** The database as the handlers find it once startup is over: whatever it
    holds, reachable or not as [startup] left it. *)
Definition after_startup (reachable : nat -> bool)
    (ws : list WaitlistDoc.t) (ts : list ThoughtsDoc.t) : DB :=
  mkDB (snd (startup reachable)) ws ts.

(* ===================================================================== *)
(** ** Reading a CSV text back *)
(* ===================================================================== *)

(** The reader the export is measured against, written from the format's
    rules (RFC 4180, with a bare line feed ending a record): a field is
    either bare, and then holds no double quote, or enclosed in double
    quotes, and then a double quote inside it is written twice. *)
Module Rfc4180.

Inductive state : Type := FieldStart | Bare | Quoted | QuoteSeen.

Definition snoc (s : string) (c : ascii) : string := s ++ String c EmptyString.

Fixpoint parse (st : state) (cur : string) (fields : list string)
    (records : list (list string)) (s : string)
  : option (list (list string)) :=
  match s with
  | EmptyString =>
      match st, fields with
      | Quoted, _ => None
      | FieldStart, [] => Some records
      | _, _ => Some (records ++ [fields ++ [cur]])%list
      end
  | String c r =>
      match st with
      | FieldStart =>
          if Ascii.eqb c "034" then parse Quoted EmptyString fields records r
          else if Ascii.eqb c "," then
            parse FieldStart EmptyString (fields ++ [EmptyString])%list records r
          else if Ascii.eqb c "010" then
            parse FieldStart EmptyString [] (records ++ [fields ++ [EmptyString]])%list r
          else parse Bare (String c EmptyString) fields records r
      | Bare =>
          if Ascii.eqb c "034" then None
          else if Ascii.eqb c "," then
            parse FieldStart EmptyString (fields ++ [cur])%list records r
          else if Ascii.eqb c "010" then
            parse FieldStart EmptyString [] (records ++ [fields ++ [cur]])%list r
          else parse Bare (snoc cur c) fields records r
      | Quoted =>
          if Ascii.eqb c "034" then parse QuoteSeen cur fields records r
          else parse Quoted (snoc cur c) fields records r
      | QuoteSeen =>
          if Ascii.eqb c "034" then parse Quoted (snoc cur "034") fields records r
          else if Ascii.eqb c "," then
            parse FieldStart EmptyString (fields ++ [cur])%list records r
          else if Ascii.eqb c "010" then
            parse FieldStart EmptyString [] (records ++ [fields ++ [cur]])%list r
          else None
      end
  end.

(** The records of a CSV text. *)
Definition read (s : string) : option (list (list string)) :=
  parse FieldStart EmptyString [] [] s.

End Rfc4180.

(* ===================================================================== *)
(** ** Statements and sample inputs *)
(* ===================================================================== *)

(** The number of calls of [mongoose.connect] in a trace. *)
Definition attempts (trace : list StartupEvent) : nat :=
  List.length (filter is_connect trace).

(** The invariants of the two collections: no two waitlist entries share an
    email, and every stored document passes the validation of its schema
    (so every stored email is in normal form and every stored message has at
    least 10 characters). *)
Definition waitlist_doc_ok (d : WaitlistDoc.t) : Prop :=
  Waitlist.validate d = true
  /\ normalize_email (WaitlistDoc.email d) = WaitlistDoc.email d.

Definition thoughts_doc_ok (d : ThoughtsDoc.t) : Prop :=
  Thoughts.validate d = true
  /\ JsString.trim (ThoughtsDoc.message d) = ThoughtsDoc.message d.

Definition store_ok (db : DB) : Prop :=
  NoDup (map WaitlistDoc.email (waitlists db))
  /\ Forall waitlist_doc_ok (waitlists db)
  /\ Forall thoughts_doc_ok (thoughts db).

(** A computation that keeps [I], however it ends. *)
Definition preserves (I : DB -> Prop) {A} (m : M A) : Prop :=
  forall db, I db -> I (snd (m db)).

(** The requests served one after the other. *)
Fixpoint serve (env : Env) (reqs : list (Route * Request)) (db : DB) : DB :=
  match reqs with
  | [] => db
  | (r, req) :: rest => serve env rest (snd (handle r env req db))
  end.

(** A request that the code of its route answers before any use of the
    database. *)
Definition answered_by_guard (r : Route) (env : Env) (req : Request) : Prop :=
  exists resp,
    (status resp = 400 \/ status resp = 401)
    /\ forall db, handle r env req db = (Responded resp, db).

(** A request answered 500 with [{success: false, message}]. *)
Definition answered_500 (r : Route) (env : Env) (req : Request) (db : DB) : Prop :=
  exists text, handle r env req db = (Responded (reply 500 false text), db).

(** The two routes that write. *)
Definition is_post (r : Route) : bool :=
  match r with PostWaitlist | PostThoughts => true | _ => false end.

(** A body value that is a string. *)
Definition is_string (v : jsval) : bool :=
  match v with JStr _ => true | _ => false end.

(** The answers of the two submission routes. *)
Definition waitlist_created (count : nat) : Response :=
  mkResponse 201 []
    (Json true (Some "Successfully added to waitlist") (Some count) None).

Definition server_error_retry : Response :=
  reply 500 false "Server error. Please try again.".

(** The document POST /api/waitlist builds from a request whose email is the
    string [s]. *)
Definition waitlist_entry (req : Request) (s : string) : WaitlistDoc.t :=
  Waitlist.new (object_id req) (JsString.toLowerCase s) (ip req)
    (user_agent req) (now req).

(** The document POST /api/thoughts builds from a request whose message is
    the string [m]. *)
Definition thoughts_entry (req : Request) (m : string) : ThoughtsDoc.t :=
  Thoughts.new (object_id req) (normalized_email (body_email req)) (JsString.trim m)
    (ip req) (user_agent req) (now req).

(** The statuses a route can answer. *)
Definition allowed_status (r : Route) : list nat :=
  match r with
  | PostWaitlist => [201; 400; 409; 500]
  | PostThoughts => [201; 400; 500]
  | GetWaitlistCount | GetThoughtsCount => [200; 500]
  | GetWaitlistAll | GetThoughtsAll | GetWaitlistExport | GetThoughtsExport =>
      [200; 401; 500]
  | GetHealth => [200]
  end.

(** The shape of an answer: a JSON body carries [success], true exactly for
    the statuses below 300, and a failure carries a message and neither count
    nor data; text is the CSV of an export, answered 200 with its content
    type; the health JSON comes from the health check only. *)
Definition well_shaped (r : Route) (resp : Response) : Prop :=
  match body resp with
  | Json success message count data =>
      success = (status resp <? 300)%nat
      /\ (success = false -> message <> None /\ count = None /\ data = None)
  | Text _ =>
      (r = GetWaitlistExport \/ r = GetThoughtsExport)
      /\ status resp = 200
      /\ In ("Content-Type", "text/csv") (headers resp)
  | HealthJson _ _ => r = GetHealth
  end.

(** The trace of [j] failed attempts, each followed by the timer of its
    retry. *)
Fixpoint failed_attempts (j : nat) : list StartupEvent :=
  match j with
  | O => []
  | S j' => Connect :: LogConnectionError :: SetTimeout 5000 :: failed_attempts j'
  end.

(** The email of a stored thought: [null], the empty string, or a string in
    normal form that matches the pattern. *)
Definition thoughts_email_ok (d : ThoughtsDoc.t) : Prop :=
  match ThoughtsDoc.email d with
  | None => True
  | Some e =>
      normalize_email e = e
      /\ (JsString.isEmpty e = true \/ RegExp.test RegExp.emailPattern e = true)
  end.

(** The strings a regular expression matches, by the usual rules. *)
Inductive accepts : RegExp.regex -> string -> Prop :=
| accepts_eps : accepts RegExp.Eps EmptyString
| accepts_cls (p : ascii -> bool) (c : ascii) :
    p c = true -> accepts (RegExp.Cls p) (String c EmptyString)
| accepts_cat (r1 r2 : RegExp.regex) (s1 s2 : string) :
    accepts r1 s1 -> accepts r2 s2 -> accepts (RegExp.Cat r1 r2) (s1 ++ s2)
| accepts_alt_l (r1 r2 : RegExp.regex) (s : string) :
    accepts r1 s -> accepts (RegExp.Alt r1 r2) s
| accepts_alt_r (r1 r2 : RegExp.regex) (s : string) :
    accepts r2 s -> accepts (RegExp.Alt r1 r2) s
| accepts_star_nil (r : RegExp.regex) : accepts (RegExp.Star r) EmptyString
| accepts_star_more (r : RegExp.regex) (s1 s2 : string) :
    accepts r s1 -> accepts (RegExp.Star r) s2 ->
    accepts (RegExp.Star r) (s1 ++ s2).

(** A part of an email: one character or more, none of them white space or
    an at sign. *)
Definition email_part (s : string) : Prop :=
  JsString.isEmpty s = false /\ JsString.all RegExp.notSpaceAt s = true.

(** The capital letters [toLowerCase] changes: A-Z and the Latin-1 capitals. *)
Definition isUpperCase (c : ascii) : bool :=
  let n := N_of_ascii c in
  ((65 <=? n) && (n <=? 90)
   || (192 <=? n) && (n <=? 222) && negb (n =? 215))%N.

(** A string with no capital letter and no white space. *)
Definition lower_and_dense (s : string) : bool :=
  JsString.all (fun c => negb (isUpperCase c) && negb (JsString.isWhiteSpace c)) s.

(** Inputs on which the properties below are run. *)
Definition sample_env : Env :=
  mkEnv (Some "s3cret") (fun _ => "11/2/2026, 10:20:00 PM").

Definition keyless_env : Env :=
  mkEnv None (fun _ => "11/2/2026, 10:20:00 PM").

Definition empty_db : DB := mkDB true [] [].

Definition sample_store : DB :=
  mkDB true
    [ WaitlistDoc.mk 101%N "ada@example.org" 1000 "landing-page"
        (Some "203.0.113.7") (Some "curl/8.5.0");
      WaitlistDoc.mk 102%N "bob@example.org" 3000 "landing-page"
        (Some "203.0.113.8") None;
      WaitlistDoc.mk 103%N "cy@example.org" 2000 "landing-page" None None ]
    [ ThoughtsDoc.mk 201%N (Some "ada@example.org") "Ship it, please" 1500
        "landing-page" (Some "203.0.113.7") (Some "curl/8.5.0");
      ThoughtsDoc.mk 202%N None "More charts would help" 2500
        "landing-page" (Some "203.0.113.9") None ].

(** A request of a visitor at time [t]; the identifier drawn for its document
    is taken from the clock. *)
Definition submit (email message : jsval) (t : Z) : Request :=
  mkRequest email message (Some "203.0.113.7") (Some "curl/8.5.0") None t
    (Z.to_N t).

Definition browse (key : option string) : Request :=
  mkRequest JUndefined JUndefined (Some "198.51.100.4") (Some "Mozilla/5.0")
    key 9000 9000%N.

(** A waitlist of one entry, the same but for its identifier. *)
Definition store_of_one (id : ObjectId) : DB :=
  mkDB true
    [ WaitlistDoc.mk id "ada@example.org" 1000 "landing-page" None None ] [].

(** An email the handler and the schema accept: x, a double quote, a comma,
    a double quote, then y@z.w. *)
Definition quoting_email : string := "x" ++ DQ ++ "," ++ DQ ++ "y@z.w".

(** A message with a comma, two double quotes and a line feed. *)
Definition quoting_message : string :=
  "hello, " ++ DQ ++ "world" ++ DQ ++ LF ++ "again".

(** A string that can stand as a bare CSV field: no double quote, no comma,
    no line feed. *)
Definition bare (s : string) : bool :=
  JsString.all
    (fun c => negb (Ascii.eqb c "034") && negb (Ascii.eqb c ",")
              && negb (Ascii.eqb c "010")) s.

(** The cells of a line of the waitlist export. *)
Definition waitlist_cells (env : Env) (entry : WaitlistDoc.t) : list string :=
  [ WaitlistDoc.email entry;
    toLocaleString env (WaitlistDoc.timestamp entry);
    WaitlistDoc.source entry;
    template (WaitlistDoc.ipAddress entry) ].

(** Cells written one after the other with commas between them. *)
Fixpoint comma_separated (cells : list string) : string :=
  match cells with
  | [] => EmptyString
  | [c] => c
  | c :: rest => c ++ "," ++ comma_separated rest
  end.

(** A host that renders dates without a comma. *)
Definition plain_date_env : Env :=
  mkEnv (Some "s3cret") (fun _ => "2026-11-02 22:20:00").

(* ===================================================================== *)
(** * Properties *)
(* ===================================================================== *)

Unset Implicit Arguments.

(** ** Strings *)

Section StringFacts.
Import JsString.

Lemma toLowerChar_idem (c : ascii) : toLowerChar (toLowerChar c) = toLowerChar c.
Proof. destruct c as [[] [] [] [] [] [] [] []]; reflexivity. Qed.

Lemma isWhiteSpace_toLowerChar (c : ascii) :
  isWhiteSpace (toLowerChar c) = isWhiteSpace c.
Proof. destruct c as [[] [] [] [] [] [] [] []]; reflexivity. Qed.

Lemma toLowerCase_idem (s : string) : toLowerCase (toLowerCase s) = toLowerCase s.
Proof.
  induction s as [|c r IH]; simpl; [reflexivity|].
  now rewrite toLowerChar_idem, IH.
Qed.

Lemma isEmpty_toLowerCase (s : string) : isEmpty (toLowerCase s) = isEmpty s.
Proof. destruct s; reflexivity. Qed.

Lemma toLowerCase_trimStart (s : string) :
  toLowerCase (trimStart s) = trimStart (toLowerCase s).
Proof.
  induction s as [|c r IH]; simpl; [reflexivity|].
  rewrite isWhiteSpace_toLowerChar.
  destruct (isWhiteSpace c); [exact IH | reflexivity].
Qed.

Lemma toLowerCase_trimEnd (s : string) :
  toLowerCase (trimEnd s) = trimEnd (toLowerCase s).
Proof.
  induction s as [|c r IH]; simpl; [reflexivity|].
  rewrite isWhiteSpace_toLowerChar, <- IH, isEmpty_toLowerCase.
  destruct (isWhiteSpace c && isEmpty (trimEnd r)); simpl; [reflexivity|].
  reflexivity.
Qed.

(** Lowercasing and trimming commute: the order of the two setters does
    not matter. *)
Lemma toLowerCase_trim (s : string) : toLowerCase (trim s) = trim (toLowerCase s).
Proof.
  unfold trim. now rewrite toLowerCase_trimEnd, toLowerCase_trimStart.
Qed.

Lemma headed_trimStart (s : string) : headed (trimStart s) = true.
Proof.
  induction s as [|c r IH]; simpl; [reflexivity|].
  destruct (isWhiteSpace c) eqn:E; [exact IH | simpl; now rewrite E].
Qed.

Lemma trimStart_headed (s : string) : headed s = true -> trimStart s = s.
Proof.
  destruct s as [|c r]; simpl; [reflexivity|].
  intros H. apply negb_true_iff in H. now rewrite H.
Qed.

Lemma headed_trimEnd (s : string) : headed s = true -> headed (trimEnd s) = true.
Proof.
  destruct s as [|c r]; simpl; [reflexivity|].
  intros H. apply negb_true_iff in H. rewrite H. simpl. now rewrite H.
Qed.

Lemma trimEnd_idem (s : string) : trimEnd (trimEnd s) = trimEnd s.
Proof.
  induction s as [|c r IH]; simpl; [reflexivity|].
  destruct (isWhiteSpace c && isEmpty (trimEnd r)) eqn:E; simpl; [reflexivity|].
  now rewrite IH, E.
Qed.

Lemma trim_idem (s : string) : trim (trim s) = trim s.
Proof.
  unfold trim.
  rewrite (trimStart_headed (trimEnd (trimStart s))).
  - apply trimEnd_idem.
  - apply headed_trimEnd, headed_trimStart.
Qed.

Lemma trimEnd_no_space (s : string) :
  all (fun c => negb (isWhiteSpace c)) s = true -> trimEnd s = s.
Proof.
  induction s as [|c r IH]; simpl; [reflexivity|].
  intros H. apply andb_true_iff in H. destruct H as [Hc Hr].
  apply negb_true_iff in Hc. rewrite Hc. simpl. now rewrite IH.
Qed.

Lemma trim_no_space (s : string) :
  all (fun c => negb (isWhiteSpace c)) s = true -> trim s = s.
Proof.
  intros H. unfold trim. rewrite trimStart_headed.
  - now apply trimEnd_no_space.
  - destruct s as [|c r]; simpl in *; [reflexivity|].
    now apply andb_true_iff in H.
Qed.

Lemma length_trimStart (s : string) : String.length (trimStart s) <= String.length s.
Proof.
  induction s as [|c r IH]; simpl; [lia|].
  destruct (isWhiteSpace c); simpl; lia.
Qed.

Lemma length_trimEnd (s : string) : String.length (trimEnd s) <= String.length s.
Proof.
  induction s as [|c r IH]; simpl; [lia|].
  destruct (isWhiteSpace c && isEmpty (trimEnd r)); simpl; lia.
Qed.

(** Trimming never lengthens. *)
Lemma length_trim (s : string) : String.length (trim s) <= String.length s.
Proof.
  unfold trim.
  pose proof (length_trimEnd (trimStart s)). pose proof (length_trimStart s). lia.
Qed.

End StringFacts.

(** Normalization of an email is idempotent. *)
Lemma normalize_email_idem (s : string) :
  normalize_email (normalize_email s) = normalize_email s.
Proof.
  unfold normalize_email.
  rewrite <- toLowerCase_trim, trim_idem, toLowerCase_trim, toLowerCase_idem.
  reflexivity.
Qed.

(** ** The email pattern *)

Section RegExpFacts.
Import RegExp.

Lemma void_not_nullable (r : regex) : void r = true -> nullable r = false.
Proof.
  induction r; simpl; intros H; try discriminate; try reflexivity.
  - apply orb_true_iff in H. destruct H as [H|H].
    + now rewrite IHr1.
    + rewrite IHr2 by assumption. apply andb_false_r.
  - apply andb_true_iff in H. destruct H as [H1 H2].
    now rewrite IHr1, IHr2.
Qed.

Lemma void_deriv (c : ascii) (r : regex) : void r = true -> void (deriv c r) = true.
Proof.
  induction r; simpl; intros H; try discriminate; try reflexivity.
  - apply orb_true_iff in H. destruct (nullable r1) eqn:N; simpl.
    + destruct H as [H|H].
      * apply void_not_nullable in H. congruence.
      * rewrite H, IHr2 by assumption. now rewrite orb_true_r.
    + destruct H as [H|H].
      * now rewrite IHr1.
      * rewrite H. apply orb_true_r.
  - apply andb_true_iff in H. destruct H as [H1 H2].
    now rewrite IHr1, IHr2.
Qed.

Lemma void_test (r : regex) (s : string) : void r = true -> test r s = false.
Proof.
  revert r. induction s as [|c s IH]; intros r H; simpl.
  - now apply void_not_nullable.
  - apply IH. now apply void_deriv.
Qed.

Lemma classes_deriv (Q : (ascii -> bool) -> Prop) (c : ascii) (r : regex) :
  classes Q r -> classes Q (deriv c r).
Proof.
  induction r; simpl; intros H; auto.
  - destruct (p c); exact I.
  - destruct H as [H1 H2]. destruct (nullable r1); simpl; auto.
  - destruct H as [H1 H2]. auto.
Qed.

Lemma deriv_outside (P : ascii -> bool) (c : ascii) (r : regex) :
  within P r -> P c = false -> void (deriv c r) = true.
Proof.
  unfold within. induction r; simpl; intros H Hc; auto.
  - destruct (p c) eqn:E; [|reflexivity].
    apply H in E. congruence.
  - destruct H as [H1 H2]. destruct (nullable r1); simpl.
    + now rewrite IHr1, IHr2.
    + now rewrite IHr1.
  - destruct H as [H1 H2]. now rewrite IHr1, IHr2.
  - now rewrite IHr.
Qed.

(** A subject the pattern accepts is made of characters of its classes. *)
Lemma test_within (P : ascii -> bool) (r : regex) (s : string) :
  within P r -> test r s = true -> JsString.all P s = true.
Proof.
  revert r. induction s as [|c s IH]; intros r H T; simpl in *; [reflexivity|].
  destruct (P c) eqn:E.
  - simpl. apply (IH (deriv c r)); [|exact T].
    now apply classes_deriv.
  - rewrite void_test in T; [discriminate|].
    now apply deriv_outside with (P := P).
Qed.

Lemma deriv_blind (f : ascii -> ascii) (c : ascii) (r : regex) :
  blind f r -> deriv (f c) r = deriv c r.
Proof.
  unfold blind. induction r; simpl; intros H; auto.
  - now rewrite H.
  - destruct H as [H1 H2]. now rewrite IHr1, IHr2.
  - destruct H as [H1 H2]. now rewrite IHr1, IHr2.
  - now rewrite IHr.
Qed.

Lemma test_toLowerCase (r : regex) (s : string) :
  blind JsString.toLowerChar r ->
  test r (JsString.toLowerCase s) = test r s.
Proof.
  revert r. induction s as [|c s IH]; intros r H; simpl; [reflexivity|].
  rewrite deriv_blind by assumption.
  apply IH. now apply classes_deriv.
Qed.

Lemma notSpaceAt_toLowerChar (c : ascii) :
  notSpaceAt (JsString.toLowerChar c) = notSpaceAt c.
Proof. destruct c as [[] [] [] [] [] [] [] []]; reflexivity. Qed.

Lemma at_toLowerChar (c : ascii) :
  Ascii.eqb "@" (JsString.toLowerChar c) = Ascii.eqb "@" c.
Proof. destruct c as [[] [] [] [] [] [] [] []]; reflexivity. Qed.

Lemma dot_toLowerChar (c : ascii) :
  Ascii.eqb "." (JsString.toLowerChar c) = Ascii.eqb "." c.
Proof. destruct c as [[] [] [] [] [] [] [] []]; reflexivity. Qed.

Lemma emailPattern_blind : blind JsString.toLowerChar emailPattern.
Proof.
  unfold blind, emailPattern, Plus; simpl.
  repeat split; intros c;
    first [apply notSpaceAt_toLowerChar | apply at_toLowerChar | apply dot_toLowerChar].
Qed.

Lemma emailPattern_within :
  within (fun c => negb (JsString.isWhiteSpace c)) emailPattern.
Proof.
  unfold within, emailPattern, Plus; simpl.
  repeat split; intros c; destruct c as [[] [] [] [] [] [] [] []];
    vm_compute; congruence.
Qed.

(** Lowercasing does not change whether a string is an email. *)
Lemma email_toLowerCase (s : string) :
  test emailPattern (JsString.toLowerCase s) = test emailPattern s.
Proof. apply test_toLowerCase, emailPattern_blind. Qed.

(** An email holds no white space, so trimming leaves it alone. *)
Lemma email_trim (s : string) :
  test emailPattern s = true -> JsString.trim s = s.
Proof.
  intros H. apply trim_no_space.
  now apply test_within with (r := emailPattern); [apply emailPattern_within|].
Qed.

Lemma email_not_empty (s : string) :
  test emailPattern s = true -> JsString.isEmpty s = false.
Proof. destruct s; [discriminate | reflexivity]. Qed.

(** A valid email is normalized to a valid email. *)
Lemma email_normalize (s : string) :
  test emailPattern s = true -> test emailPattern (normalize_email s) = true.
Proof.
  intros H. unfold normalize_email.
  rewrite email_trim; now rewrite email_toLowerCase.
Qed.

End RegExpFacts.

(** ** The waitlist *)

Lemma normalize_email_lower (s : string) :
  normalize_email (JsString.toLowerCase s) = normalize_email s.
Proof. unfold normalize_email. now rewrite toLowerCase_idem. Qed.

Lemma find_existsb {A} (p : A -> bool) (l : list A) :
  existsb p l = false -> find p l = None.
Proof.
  induction l as [|a l IH]; simpl; [reflexivity|].
  destruct (p a); simpl; [discriminate | exact IH].
Qed.

Lemma existsb_find {A} (p : A -> bool) (l : list A) :
  existsb p l = true -> exists a, find p l = Some a.
Proof.
  induction l as [|a l IH]; simpl; [discriminate|].
  destruct (p a); simpl; [now exists a | exact IH].
Qed.

(** *** Running the monad *)

Lemma bind_ok {A B} (m : M A) (k : A -> M B) (db db' : DB) (a : A) :
  m db = (Ok a, db') -> bind m k db = k a db'.
Proof. intros H. unfold bind. now rewrite H. Qed.

Lemma bind_throw {A B} (m : M A) (k : A -> M B) (db db' : DB) (e : Error) :
  m db = (Throw e, db') -> bind m k db = (Throw e, db').
Proof. intros H. unfold bind. now rewrite H. Qed.

Lemma bind_ret {A B} (a : A) (k : A -> M B) : bind (ret a) k = k a.
Proof. reflexivity. Qed.

Lemma operation_up {A} (f : DB -> A * DB) (db : DB) :
  connected db = true -> operation f db = (Ok (fst (f db)), snd (f db)).
Proof. intros H. unfold operation. rewrite H. now destruct (f db). Qed.

Lemma operation_down {A} (f : DB -> A * DB) (db : DB) :
  connected db = false -> operation f db = (Throw ConnectionError, db).
Proof. intros H. unfold operation. now rewrite H. Qed.

Lemma try_catch_ok (m : M Response) (h : Error -> Response) (db db' : DB)
    (r : Response) :
  m db = (Ok r, db') -> try_catch m h db = (Responded r, db').
Proof. intros H. unfold try_catch. now rewrite H. Qed.

Lemma try_catch_throw (m : M Response) (h : Error -> Response) (db db' : DB)
    (e : Error) :
  m db = (Throw e, db') -> try_catch m h db = (Responded (h e), db').
Proof. intros H. unfold try_catch. now rewrite H. Qed.

Lemma findOne_up (e : string) (db : DB) :
  connected db = true ->
  Waitlist.findOne e db =
    (Ok (find (fun d => String.eqb (WaitlistDoc.email d) (normalize_email e))
              (waitlists db)), db).
Proof. intros H. unfold Waitlist.findOne. now rewrite operation_up. Qed.

Lemma waitlist_save_ok (d : WaitlistDoc.t) (db : DB) :
  Waitlist.validate d = true ->
  connected db = true ->
  existsb (fun d' => String.eqb (WaitlistDoc.email d') (WaitlistDoc.email d))
          (waitlists db) = false ->
  Waitlist.save d db = (Ok tt, mkDB true (waitlists db ++ [d]) (thoughts db)).
Proof.
  intros Hv Hc Hn. unfold Waitlist.save. rewrite Hv. cbn [negb].
  now rewrite Hc, Hn.
Qed.

Lemma waitlist_save_invalid (d : WaitlistDoc.t) (db : DB) :
  Waitlist.validate d = false -> Waitlist.save d db = (Throw ValidationError, db).
Proof. intros Hv. unfold Waitlist.save. now rewrite Hv. Qed.

(** The body of POST /api/waitlist on a non-empty string. *)
Lemma post_waitlist_string (req : Request) (e : string) :
  body_email req = JStr e ->
  JsString.isEmpty e = false ->
  post_waitlist_body req =
    (existingEmail <- Waitlist.findOne (JsString.toLowerCase e) ;;
     match existingEmail with
     | Some _ => ret (reply 409 false "This email is already registered")
     | None =>
         Waitlist.save
           (Waitlist.new (object_id req) (JsString.toLowerCase e) (ip req) (user_agent req) (now req)) ;;;
         totalCount <- Waitlist.countDocuments ;;
         ret (mkResponse 201 []
                (Json true (Some "Successfully added to waitlist")
                      (Some totalCount) None))
     end).
Proof.
  intros He Hne. unfold post_waitlist_body. rewrite He. simpl. rewrite Hne.
  reflexivity.
Qed.

Lemma new_waitlist_email (id : ObjectId) (e : string) (i u : option string)
    (t : Z) :
  WaitlistDoc.email (Waitlist.new id (JsString.toLowerCase e) i u t) = normalize_email e.
Proof. unfold Waitlist.new. cbn [WaitlistDoc.email]. apply normalize_email_lower. Qed.

(** A normalized email that is valid and new is stored, and the answer is
    201 with the new size of the collection. *)
Lemma waitlist_fresh (env : Env) (req : Request) (db : DB) (e : string) :
  body_email req = JStr e ->
  RegExp.test RegExp.emailPattern (normalize_email e) = true ->
  connected db = true ->
  Waitlist.has e db = false ->
  handle PostWaitlist env req db =
    (Responded (mkResponse 201 []
       (Json true (Some "Successfully added to waitlist")
             (Some (S (List.length (waitlists db)))) None)),
     mkDB true
       (waitlists db ++
          [Waitlist.new (object_id req) (JsString.toLowerCase e) (ip req) (user_agent req) (now req)])
       (thoughts db)).
Proof.
  intros He Hv Hc Hn.
  assert (Hne : JsString.isEmpty e = false).
  { destruct e; [|reflexivity].
    vm_compute in Hv. discriminate. }
  unfold handle. apply try_catch_ok.
  rewrite (post_waitlist_string _ _ He Hne).
  erewrite bind_ok by (apply findOne_up; exact Hc).
  rewrite normalize_email_lower, (find_existsb _ _ Hn).
  erewrite bind_ok.
  2:{ apply waitlist_save_ok; [| exact Hc |].
      - unfold Waitlist.validate. rewrite new_waitlist_email.
        now rewrite (email_not_empty _ Hv), Hv.
      - rewrite new_waitlist_email. exact Hn. }
  erewrite bind_ok by (unfold Waitlist.countDocuments; now apply operation_up).
  cbn [fst snd waitlists]. rewrite length_app. cbn [List.length].
  rewrite Nat.add_1_r. reflexivity.
Qed.

(** An email whose normal form is stored is answered 409, and nothing is
    written. *)
Lemma waitlist_stored (env : Env) (req : Request) (db : DB) (e : string) :
  body_email req = JStr e ->
  JsString.isEmpty e = false ->
  connected db = true ->
  Waitlist.has e db = true ->
  handle PostWaitlist env req db =
    (Responded (reply 409 false "This email is already registered"), db).
Proof.
  intros He Hne Hc Hs.
  unfold handle. apply try_catch_ok.
  rewrite (post_waitlist_string _ _ He Hne).
  erewrite bind_ok by (apply findOne_up; exact Hc).
  rewrite normalize_email_lower.
  destruct (existsb_find _ _ Hs) as [d Hd]. rewrite Hd.
  reflexivity.
Qed.

Lemma has_after_insert (db : DB) (e e' : string) (d : WaitlistDoc.t) (c : bool) :
  WaitlistDoc.email d = normalize_email e ->
  normalize_email e' = normalize_email e ->
  Waitlist.has e' (mkDB c (waitlists db ++ [d]) (thoughts db)) = true.
Proof.
  intros Hd He. unfold Waitlist.has. cbn [waitlists].
  rewrite existsb_app. cbn [existsb]. rewrite Hd, He, String.eqb_refl.
  now rewrite orb_true_r.
Qed.

(** First a success, then a conflict: two submissions with the same normal
    form, the first one of a valid email not stored yet. *)
Lemma waitlist_twice (env : Env) (req1 req2 : Request) (db : DB) (e1 e2 : string) :
  body_email req1 = JStr e1 ->
  body_email req2 = JStr e2 ->
  normalize_email e2 = normalize_email e1 ->
  RegExp.test RegExp.emailPattern (normalize_email e1) = true ->
  connected db = true ->
  Waitlist.has e1 db = false ->
  let db1 :=
    mkDB true
      (waitlists db ++
         [Waitlist.new (object_id req1) (JsString.toLowerCase e1) (ip req1) (user_agent req1) (now req1)])
      (thoughts db) in
  handle PostWaitlist env req1 db =
    (Responded (mkResponse 201 []
       (Json true (Some "Successfully added to waitlist")
             (Some (S (List.length (waitlists db)))) None)), db1)
  /\ handle PostWaitlist env req2 db1 =
    (Responded (reply 409 false "This email is already registered"), db1).
Proof.
  intros H1 H2 Hn Hv Hc Hf db1. split.
  - now apply waitlist_fresh.
  - apply waitlist_stored with (e := e2); trivial.
    + destruct e2; [|reflexivity].
      rewrite <- Hn in Hv. vm_compute in Hv. discriminate.
    + apply has_after_insert with (e := e1); [|assumption].
      apply new_waitlist_email.
Qed.

(** C2: normalizing an email (lowercase, then trim) is idempotent; and of two
    waitlist submissions whose emails have the same normal form (they differ
    only in letter case or in surrounding white space), the email being valid
    and not stored yet, the first is answered 201 and stored, the second is
    answered 409 and nothing is written. *)
Theorem email_normalization_collides
    (env : Env) (req1 req2 : Request) (db : DB) (e1 e2 : string) :
  body_email req1 = JStr e1 ->
  body_email req2 = JStr e2 ->
  normalize_email e2 = normalize_email e1 ->
  RegExp.test RegExp.emailPattern (normalize_email e1) = true ->
  connected db = true ->
  Waitlist.has e1 db = false ->
  (forall s, normalize_email (normalize_email s) = normalize_email s)
  /\ exists db1,
       handle PostWaitlist env req1 db =
         (Responded (mkResponse 201 []
            (Json true (Some "Successfully added to waitlist")
                  (Some (S (List.length (waitlists db)))) None)), db1)
       /\ map WaitlistDoc.email (waitlists db1) =
            (map WaitlistDoc.email (waitlists db) ++ [normalize_email e1])%list
       /\ handle PostWaitlist env req2 db1 =
            (Responded (reply 409 false "This email is already registered"), db1).
Proof.
  intros H1 H2 Hn Hv Hc Hf. split; [exact normalize_email_idem|].
  destruct (waitlist_twice env req1 req2 db _ _ H1 H2 Hn Hv Hc Hf) as [Ha Hb].
  eexists. split; [exact Ha|]. split; [|exact Hb].
  cbn [waitlists]. rewrite map_app. cbn [map].
  now rewrite new_waitlist_email.
Qed.

(** Run on two spellings of one address, on empty collections. *)
Lemma email_normalization_collides_witness :
  let req1 := submit (JStr "User@Example.com ") JUndefined 1000 in
  let req2 := submit (JStr "  user@EXAMPLE.com") JUndefined 2000 in
  (forall s, normalize_email (normalize_email s) = normalize_email s)
  /\ exists db1,
       handle PostWaitlist sample_env req1 empty_db =
         (Responded (mkResponse 201 []
            (Json true (Some "Successfully added to waitlist") (Some 1) None)), db1)
       /\ map WaitlistDoc.email (waitlists db1) = ["user@example.com"]
       /\ handle PostWaitlist sample_env req2 db1 =
            (Responded (reply 409 false "This email is already registered"), db1).
Proof.
  intros req1 req2.
  apply (@email_normalization_collides sample_env req1 req2 empty_db
           "User@Example.com " "  user@EXAMPLE.com"); reflexivity.
Defined.

(** C3: for a valid email that no stored entry has (in its normal form),
    two submissions in a row are answered 201, with the entry created, and
    then 409 with [success: false] and no new entry. *)
Theorem waitlist_submit_twice
    (env : Env) (req1 req2 : Request) (db : DB) (e : string) :
  body_email req1 = JStr e ->
  body_email req2 = JStr e ->
  RegExp.test RegExp.emailPattern e = true ->
  connected db = true ->
  Waitlist.has e db = false ->
  exists r1 r2 db1 entry,
    handle PostWaitlist env req1 db = (Responded r1, db1)
    /\ status r1 = 201 /\ success_of r1 = Some true
    /\ waitlists db1 = (waitlists db ++ [entry])%list
    /\ WaitlistDoc.email entry = JsString.toLowerCase e
    /\ handle PostWaitlist env req2 db1 = (Responded r2, db1)
    /\ status r2 = 409 /\ success_of r2 = Some false.
Proof.
  intros H1 H2 Hv Hc Hf.
  pose proof (email_normalize _ Hv) as Hv'.
  destruct (waitlist_twice env req1 req2 db _ _ H1 H2 eq_refl Hv' Hc Hf) as [Ha Hb].
  do 4 eexists. split; [exact Ha|].
  repeat split; try exact Hb; try reflexivity.
  rewrite new_waitlist_email. unfold normalize_email.
  apply email_trim. now rewrite email_toLowerCase.
Qed.

(** Run on one address submitted twice, on empty collections. *)
Lemma waitlist_submit_twice_witness :
  let req1 := submit (JStr "Ada@Example.org") JUndefined 1000 in
  let req2 := submit (JStr "Ada@Example.org") JUndefined 2000 in
  exists r1 r2 db1 entry,
    handle PostWaitlist sample_env req1 empty_db = (Responded r1, db1)
    /\ status r1 = 201 /\ success_of r1 = Some true
    /\ waitlists db1 = (waitlists empty_db ++ [entry])%list
    /\ WaitlistDoc.email entry = JsString.toLowerCase "Ada@Example.org"
    /\ handle PostWaitlist sample_env req2 db1 = (Responded r2, db1)
    /\ status r2 = 409 /\ success_of r2 = Some false.
Proof.
  intros req1 req2.
  apply (@waitlist_submit_twice sample_env req1 req2 empty_db "Ada@Example.org");
    reflexivity.
Defined.

(** C10, as amended: a waitlist submission whose email is a non-empty string
    that, once lowercased and trimmed, does not match the email pattern, and
    that no stored entry has, is answered 500 by the [catch] branch (the format
    is checked by the schema, at save), and the database is left as it was. *)
Theorem waitlist_invalid_email_500
    (env : Env) (req : Request) (db : DB) (e : string) :
  body_email req = JStr e ->
  JsString.isEmpty e = false ->
  RegExp.test RegExp.emailPattern (normalize_email e) = false ->
  Waitlist.has e db = false ->
  handle PostWaitlist env req db =
    (Responded (reply 500 false "Server error. Please try again."), db).
Proof.
  intros He Hne Hv Hf.
  unfold handle. rewrite (post_waitlist_string _ _ He Hne).
  destruct (connected db) eqn:Hc.
  - rewrite try_catch_throw with (e := ValidationError) (db' := db);
      [reflexivity|].
    erewrite bind_ok by (apply findOne_up; exact Hc).
    rewrite normalize_email_lower, (find_existsb _ _ Hf).
    eapply bind_throw. apply waitlist_save_invalid.
    unfold Waitlist.validate. rewrite new_waitlist_email, Hv.
    apply andb_false_r.
  - rewrite try_catch_throw with (e := ConnectionError) (db' := db);
      [reflexivity|].
    eapply bind_throw.
    unfold Waitlist.findOne. now apply operation_down.
Qed.

(** Run on an address without an at sign. *)
Lemma waitlist_invalid_email_500_witness :
  let req := submit (JStr "ada.example.org") JUndefined 1000 in
  handle PostWaitlist sample_env req empty_db =
    (Responded (reply 500 false "Server error. Please try again."), empty_db).
Proof.
  intros req.
  apply (@waitlist_invalid_email_500 sample_env req empty_db "ada.example.org");
    reflexivity.
Defined.

(** C10, as stated, fails: an email with a trailing space does not match the
    pattern as submitted, is not stored, and is answered 201 and stored. *)
Lemma waitlist_padded_email_accepted :
  let e := "User@Example.com " in
  let req := submit (JStr e) JUndefined 1000 in
  body_email req = JStr e
  /\ JsString.isEmpty e = false
  /\ RegExp.test RegExp.emailPattern e = false
  /\ Waitlist.has e empty_db = false
  /\ handle PostWaitlist sample_env req empty_db =
       (Responded (mkResponse 201 []
          (Json true (Some "Successfully added to waitlist") (Some 1) None)),
        mkDB true
          [WaitlistDoc.mk 1000%N "user@example.com" 1000 "landing-page"
             (Some "203.0.113.7") (Some "curl/8.5.0")] [])
  /\ handle PostWaitlist sample_env req empty_db <>
       (Responded (reply 500 false "Server error. Please try again."), empty_db).
Proof.
  repeat split; try reflexivity. discriminate.
Qed.

(** ** Thoughts *)

Lemma thoughts_save_ok (d : ThoughtsDoc.t) (db : DB) :
  Thoughts.validate d = true ->
  connected db = true ->
  Thoughts.save d db = (Ok tt, mkDB true (waitlists db) (thoughts db ++ [d])).
Proof.
  intros Hv Hc. unfold Thoughts.save. rewrite Hv. cbn [negb].
  rewrite operation_up by assumption. cbn [fst snd]. now rewrite Hc.
Qed.

Lemma thoughts_save_invalid (d : ThoughtsDoc.t) (db : DB) :
  Thoughts.validate d = false -> Thoughts.save d db = (Throw ValidationError, db).
Proof. intros Hv. unfold Thoughts.save. now rewrite Hv. Qed.

(** A missing message is answered 400 and nothing is stored. *)
Lemma thoughts_message_missing (env : Env) (req : Request) (db : DB) :
  truthy (body_message req) = false ->
  handle PostThoughts env req db =
    (Responded (reply 400 false "Message is required"), db).
Proof.
  intros H. unfold handle, try_catch, post_thoughts_body. now rewrite H.
Qed.

(** A message of fewer than 10 characters, as submitted, is answered 400 and
    nothing is stored. *)
Lemma thoughts_message_short (env : Env) (req : Request) (db : DB) (m : string) :
  body_message req = JStr m ->
  String.length m < 10 ->
  exists text, handle PostThoughts env req db = (Responded (reply 400 false text), db).
Proof.
  intros Hm Hl. unfold handle, try_catch, post_thoughts_body. rewrite Hm.
  destruct (negb (truthy (JStr m))); [eexists; reflexivity|].
  unfold length_lt. apply Nat.ltb_lt in Hl. rewrite Hl.
  eexists; reflexivity.
Qed.

(** The body of POST /api/thoughts past its guards. *)
Lemma post_thoughts_string (req : Request) (m : string) :
  body_message req = JStr m ->
  10 <= String.length m ->
  email_passes (body_email req) = true ->
  post_thoughts_body req =
    (Thoughts.save
       (Thoughts.new (object_id req) (normalized_email (body_email req)) (JsString.trim m)
          (ip req) (user_agent req) (now req)) ;;;
     ret (reply 201 true "Successfully saved your thoughts")).
Proof.
  intros Hm Hl He. unfold post_thoughts_body. rewrite Hm.
  assert (Ht : truthy (JStr m) = true) by (destruct m; [simpl in Hl; lia | reflexivity]).
  rewrite Ht. cbn [negb]. unfold length_lt.
  assert (Hl' : (String.length m <? 10)%nat = false) by (apply Nat.ltb_ge; exact Hl).
  rewrite Hl'.
  destruct (body_email req) as [| |b|n|s]; simpl in He |- *.
  - reflexivity.
  - reflexivity.
  - apply negb_true_iff in He. subst b. reflexivity.
  - apply negb_true_iff in He. rewrite He. reflexivity.
  - destruct (JsString.isEmpty s) eqn:Es; simpl; [reflexivity|].
    rewrite !bind_ret.
    change (JsString.trim (JsString.toLowerCase s)) with (normalize_email s).
    apply orb_true_iff in He. destruct He as [He|He]; rewrite He; simpl.
    + reflexivity.
    + rewrite andb_false_r. reflexivity.
Qed.

Lemma email_passes_validates (v : jsval) :
  email_passes v = true ->
  match option_map normalize_email (normalized_email v) with
  | None => true
  | Some e => JsString.isEmpty e || RegExp.test RegExp.emailPattern e
  end = true.
Proof.
  destruct v as [| |b|n|s]; simpl; try reflexivity.
  intros H. destruct (JsString.isEmpty s); simpl; [reflexivity|].
  now rewrite normalize_email_idem.
Qed.

Lemma isEmpty_length (s : string) : 1 <= String.length s -> JsString.isEmpty s = false.
Proof. destruct s; simpl; [lia | reflexivity]. Qed.

(** A message of at least 10 characters once trimmed, with an email that
    passes, is stored trimmed and answered 201. *)
Lemma thoughts_message_long (env : Env) (req : Request) (db : DB) (m : string) :
  body_message req = JStr m ->
  10 <= String.length (JsString.trim m) ->
  email_passes (body_email req) = true ->
  connected db = true ->
  handle PostThoughts env req db =
    (Responded (reply 201 true "Successfully saved your thoughts"),
     mkDB true (waitlists db)
       (thoughts db ++
          [Thoughts.new (object_id req) (normalized_email (body_email req)) (JsString.trim m)
             (ip req) (user_agent req) (now req)])).
Proof.
  intros Hm Hl He Hc.
  pose proof (length_trim m) as Hle.
  unfold handle. apply try_catch_ok.
  rewrite (post_thoughts_string _ _ Hm) by (trivial; lia).
  erewrite bind_ok; [reflexivity|].
  apply thoughts_save_ok; [|exact Hc].
  unfold Thoughts.validate, Thoughts.new.
  cbn [ThoughtsDoc.email ThoughtsDoc.message].
  rewrite email_passes_validates by assumption.
  rewrite trim_idem, isEmpty_length by lia.
  cbn [negb andb]. now apply Nat.leb_le.
Qed.

(** A message of at least 10 characters as submitted but fewer once trimmed
    gets past the handler's length check and is refused by the schema at
    save: the answer is 500, and nothing is stored. *)
Lemma thoughts_message_padded (env : Env) (req : Request) (db : DB) (m : string) :
  body_message req = JStr m ->
  10 <= String.length m ->
  String.length (JsString.trim m) < 10 ->
  email_passes (body_email req) = true ->
  handle PostThoughts env req db =
    (Responded (reply 500 false "Server error. Please try again."), db).
Proof.
  intros Hm Hl Ht He.
  unfold handle. rewrite (post_thoughts_string _ _ Hm) by trivial.
  rewrite try_catch_throw with (e := ValidationError) (db' := db);
    [reflexivity|].
  eapply bind_throw. apply thoughts_save_invalid.
  unfold Thoughts.validate, Thoughts.new.
  cbn [ThoughtsDoc.email ThoughtsDoc.message].
  rewrite trim_idem.
  assert (H : (10 <=? String.length (JsString.trim m))%nat = false)
    by (apply Nat.leb_gt; exact Ht).
  rewrite H. apply andb_false_r.
Qed.

(** C1, where the handler departs from it: the message [hi] followed by eight
    spaces has 10 characters as submitted and 2 once trimmed; the answer is
    500 rather than 400, and nothing is stored. *)
Theorem thoughts_padded_message_answered_500 :
  let m := "hi        " in
  let req := submit JUndefined (JStr m) 1000 in
  String.length m = 10
  /\ String.length (JsString.trim m) = 2
  /\ handle PostThoughts sample_env req empty_db =
       (Responded (reply 500 false "Server error. Please try again."), empty_db).
Proof.
  intros m req. split; [reflexivity|]. split; [reflexivity|].
  apply thoughts_message_padded with (m := m); try reflexivity;
    unfold m; vm_compute; lia.
Qed.

(** ** Sorting by timestamp *)

Section SortFacts.
Variable A : Type.
Variable ts : A -> Z.

Lemma insert_desc_perm (x : A) (l : list A) :
  Permutation (insert_desc ts x l) (x :: l).
Proof.
  induction l as [|y r IH]; simpl; [apply Permutation_refl|].
  destruct (ts y <=? ts x)%Z; [apply Permutation_refl|].
  eapply perm_trans; [apply perm_skip, IH | apply perm_swap].
Qed.

(** The sorted list holds the same documents. *)
Lemma sort_desc_perm (l : list A) : Permutation (sort_desc ts l) l.
Proof.
  induction l as [|x l IH]; simpl; [apply perm_nil|].
  eapply perm_trans; [apply insert_desc_perm | now apply perm_skip].
Qed.

Lemma insert_desc_Forall (P : A -> Prop) (x : A) (l : list A) :
  P x -> Forall P l -> Forall P (insert_desc ts x l).
Proof.
  intros Hx Hl. induction Hl as [|y r Hy Hr IH]; simpl.
  - now constructor.
  - destruct (ts y <=? ts x)%Z; repeat constructor; assumption.
Qed.

Lemma insert_desc_sorted (x : A) (l : list A) :
  StronglySorted (desc ts) l -> StronglySorted (desc ts) (insert_desc ts x l).
Proof.
  induction 1 as [|y r Hr IH Hy]; simpl.
  - repeat constructor.
  - destruct (ts y <=? ts x)%Z eqn:E.
    + apply Z.leb_le in E. constructor; [now constructor|].
      constructor; [exact E|].
      eapply Forall_impl; [|exact Hy].
      intros z Hz. unfold desc in *. lia.
    + apply Z.leb_gt in E. constructor; [exact IH|].
      apply insert_desc_Forall; [unfold desc; lia | exact Hy].
Qed.

(** In the sorted list no document comes before a later one. *)
Lemma sort_desc_sorted (l : list A) : StronglySorted (desc ts) (sort_desc ts l).
Proof.
  induction l as [|x l IH]; simpl; [constructor|].
  now apply insert_desc_sorted.
Qed.

End SortFacts.

(** ** The CSV text *)

Lemma append_assoc (a b c : string) : (a ++ b) ++ c = a ++ b ++ c.
Proof. induction a as [|x a IH]; simpl; congruence. Qed.

Lemma append_empty_r (a : string) : a ++ EmptyString = a.
Proof. induction a as [|x a IH]; simpl; congruence. Qed.

Lemma build_csv_concat {A} (header : string) (row : A -> string) (l : list A) :
  build_csv header row l = header ++ String.concat EmptyString (map row l).
Proof.
  unfold build_csv. revert header.
  induction l as [|x l IH]; intros header; simpl.
  - induction header; simpl; congruence.
  - rewrite IH. destruct l as [|y l]; simpl.
    + clear. induction header; simpl; [|congruence].
      induction (row x); simpl; congruence.
    + clear. induction header; simpl; congruence.
Qed.

(** ** The admin routes *)

Lemma admin_guard_pass (env : Env) (req : Request) (k : M Response) :
  strict_eq (x_api_key req) (ADMIN_API_KEY env) = true ->
  admin_guard env req k = k.
Proof. intros H. unfold admin_guard. now rewrite H. Qed.

Lemma admin_guard_stop (env : Env) (req : Request) (k : M Response) :
  strict_eq (x_api_key req) (ADMIN_API_KEY env) = false ->
  admin_guard env req k = ret (reply 401 false "Unauthorized").
Proof. intros H. unfold admin_guard. now rewrite H. Qed.

Lemma latest_first_sort {A} (ts : A -> Z) (l : list A) :
  latest_first ts l (sort_desc ts l).
Proof. split; [apply sort_desc_perm | apply sort_desc_sorted]. Qed.

(** A header that differs from the configured key, or is missing when a key
    is configured, is answered 401: no listing, no text, nothing written. *)
Lemma admin_refused (r : Route) (env : Env) (req : Request) (db : DB) :
  is_admin r = true ->
  strict_eq (x_api_key req) (ADMIN_API_KEY env) = false ->
  handle r env req db = (Responded (reply 401 false "Unauthorized"), db).
Proof.
  intros Hr Hk.
  destruct r; try discriminate; unfold handle;
    apply try_catch_ok;
    unfold get_waitlist_all_body, get_thoughts_all_body,
      get_waitlist_export_body, get_thoughts_export_body;
    now rewrite admin_guard_stop.
Qed.

Lemma listed_waitlist_select (docs : list WaitlistDoc.t) :
  Forall2 listed_waitlist (map Waitlist.select docs) docs.
Proof.
  induction docs as [|d docs IH]; constructor; [|exact IH].
  repeat split.
Qed.

Lemma listed_thought_select (docs : list ThoughtsDoc.t) :
  Forall2 listed_thought (map Thoughts.select docs) docs.
Proof.
  induction docs as [|d docs IH]; constructor; [|exact IH].
  repeat split.
Qed.

Lemma sort_desc_length {A} (ts : A -> Z) (l : list A) :
  List.length (sort_desc ts l) = List.length l.
Proof. apply Permutation_length, sort_desc_perm. Qed.

(** The text of an export, line by line. *)
Lemma waitlist_csv_lines (env : Env) (docs : list WaitlistDoc.t) :
  build_csv waitlist_header (waitlist_row env) docs =
    "Email,Signup Date,Source,IP Address" ++ LF
      ++ String.concat EmptyString (map (waitlist_row env) docs).
Proof.
  rewrite build_csv_concat. unfold waitlist_header. apply append_assoc.
Qed.

Lemma thoughts_csv_lines (env : Env) (docs : list ThoughtsDoc.t) :
  build_csv thoughts_header (thoughts_row env) docs =
    "Email,Message,Date,Source,IP Address" ++ LF
      ++ String.concat EmptyString (map (thoughts_row env) docs).
Proof.
  rewrite build_csv_concat. unfold thoughts_header. apply append_assoc.
Qed.

(** A header equal to the configured key (both may be missing) lets the
    request in: the answer is 200 with the whole collection, latest first. *)
Lemma admin_granted (r : Route) (env : Env) (req : Request) (db : DB) :
  is_admin r = true ->
  strict_eq (x_api_key req) (ADMIN_API_KEY env) = true ->
  connected db = true ->
  exists resp,
    handle r env req db = (Responded resp, db)
    /\ status resp = 200
    /\ whole_collection r env db resp.
Proof.
  intros Hr Hk Hc.
  destruct r; try discriminate; unfold handle;
    unfold get_waitlist_all_body, get_thoughts_all_body,
      get_waitlist_export_body, get_thoughts_export_body;
    rewrite admin_guard_pass by assumption;
    eexists; (split; [apply try_catch_ok; erewrite bind_ok;
      [reflexivity
      | unfold Waitlist.find_sorted, Thoughts.find_sorted;
        now apply operation_up] |]);
    (split; [reflexivity|]); cbn [fst snd whole_collection].
  - exists (sort_desc WaitlistDoc.timestamp (waitlists db)),
      (map Waitlist.select (sort_desc WaitlistDoc.timestamp (waitlists db))).
    split; [apply latest_first_sort|].
    split; [apply listed_waitlist_select|].
    split; [reflexivity|]. cbn [body].
    now rewrite length_map, sort_desc_length.
  - exists (sort_desc ThoughtsDoc.timestamp (thoughts db)),
      (map Thoughts.select (sort_desc ThoughtsDoc.timestamp (thoughts db))).
    split; [apply latest_first_sort|].
    split; [apply listed_thought_select|].
    split; [reflexivity|]. cbn [body].
    now rewrite length_map, sort_desc_length.
  - exists (sort_desc WaitlistDoc.timestamp (waitlists db)).
    split; [apply latest_first_sort|].
    split; [reflexivity|].
    unfold csv_response. cbn [body]. now rewrite waitlist_csv_lines.
  - exists (sort_desc ThoughtsDoc.timestamp (thoughts db)).
    split; [apply latest_first_sort|].
    split; [reflexivity|].
    unfold csv_response. cbn [body]. rewrite thoughts_csv_lines.
    do 3 f_equal. f_equal. apply map_ext. intros d.
    unfold thoughts_row, quoted, escape_quotes, email_or_empty, template.
    now rewrite !append_assoc.
Qed.

(** C5: with no admin key configured, a request to an admin route that
    carries no [x-api-key] header passes the guard ([undefined] is
    [undefined]) and is answered 200 with the whole collection: every stored
    document, latest first, a listing holding the identifier, email,
    timestamp and source (and message) of each, an export the header and the
    line of each. *)
Theorem admin_unset_key_lets_everyone_in
    (r : Route) (env : Env) (req : Request) (db : DB) :
  is_admin r = true ->
  ADMIN_API_KEY env = None ->
  x_api_key req = None ->
  connected db = true ->
  exists resp,
    handle r env req db = (Responded resp, db)
    /\ status resp = 200
    /\ whole_collection r env db resp.
Proof.
  intros Hr Hk Hh Hc. apply admin_granted; trivial.
  now rewrite Hk, Hh.
Qed.

(** Run on the thoughts export of the sample store, whose text is the header
    and the two lines, the later thought first. *)
Lemma admin_unset_key_lets_everyone_in_witness :
  (exists resp,
     handle GetThoughtsExport keyless_env (browse None) sample_store =
       (Responded resp, sample_store)
     /\ status resp = 200
     /\ whole_collection GetThoughtsExport keyless_env sample_store resp)
  /\ handle GetThoughtsExport keyless_env (browse None) sample_store =
       (Responded (mkResponse 200
          [("Content-Type", "text/csv");
           ("Content-Disposition", "attachment; filename=thoughts.csv")]
          (Text ("Email,Message,Date,Source,IP Address" ++ LF
                 ++ DQ ++ DQ ++ "," ++ DQ ++ "More charts would help" ++ DQ
                 ++ "," ++ DQ ++ "11/2/2026, 10:20:00 PM" ++ DQ
                 ++ "," ++ DQ ++ "landing-page" ++ DQ
                 ++ "," ++ DQ ++ "203.0.113.9" ++ DQ ++ LF
                 ++ DQ ++ "ada@example.org" ++ DQ
                 ++ "," ++ DQ ++ "Ship it, please" ++ DQ
                 ++ "," ++ DQ ++ "11/2/2026, 10:20:00 PM" ++ DQ
                 ++ "," ++ DQ ++ "landing-page" ++ DQ
                 ++ "," ++ DQ ++ "203.0.113.7" ++ DQ ++ LF))),
        sample_store).
Proof.
  split; [|reflexivity].
  apply (@admin_unset_key_lets_everyone_in GetThoughtsExport keyless_env
           (browse None) sample_store); reflexivity.
Defined.

(** C4, where the code departs from it: with no admin key configured, a
    request without the header is not answered 401; the listing comes back
    with the stored records, and so does the export. *)
Theorem admin_open_when_key_unset :
  ADMIN_API_KEY keyless_env = None
  /\ x_api_key (browse None) = None
  /\ handle GetWaitlistAll keyless_env (browse None) sample_store =
       (Responded (mkResponse 200 []
          (Json true None (Some 3)
             (Some (WaitlistData
                [ Waitlist.mkView 102%N "bob@example.org" 3000 "landing-page";
                  Waitlist.mkView 103%N "cy@example.org" 2000 "landing-page";
                  Waitlist.mkView 101%N "ada@example.org" 1000 "landing-page" ])))),
        sample_store)
  /\ (exists csv,
        handle GetWaitlistExport keyless_env (browse None) sample_store =
          (Responded (csv_response "waitlist.csv" csv), sample_store)).
Proof.
  repeat split. eexists. reflexivity.
Qed.

Lemma admin_down (r : Route) (env : Env) (req : Request) (db : DB) :
  is_admin r = true ->
  strict_eq (x_api_key req) (ADMIN_API_KEY env) = true ->
  connected db = false ->
  handle r env req db = (Responded (reply 500 false "Server error"), db).
Proof.
  intros Hr Hk Hc.
  destruct r; try discriminate; unfold handle;
    unfold get_waitlist_all_body, get_thoughts_all_body,
      get_waitlist_export_body, get_thoughts_export_body;
    rewrite admin_guard_pass by assumption;
    (rewrite try_catch_throw with (e := ConnectionError) (db' := db);
       [reflexivity|]);
    eapply bind_throw; unfold Waitlist.find_sorted, Thoughts.find_sorted;
    now apply operation_down.
Qed.

(** C7, as stated, fails: a listed record is not made of its email,
    timestamp and source alone.  Two waitlists whose one entry has the same
    email, timestamp and source are listed differently, each record carrying
    the [_id] of its document. *)
Lemma listing_shows_object_id :
  map WaitlistDoc.email (waitlists (store_of_one 101%N)) =
    map WaitlistDoc.email (waitlists (store_of_one 102%N))
  /\ map WaitlistDoc.timestamp (waitlists (store_of_one 101%N)) =
       map WaitlistDoc.timestamp (waitlists (store_of_one 102%N))
  /\ map WaitlistDoc.source (waitlists (store_of_one 101%N)) =
       map WaitlistDoc.source (waitlists (store_of_one 102%N))
  /\ handle GetWaitlistAll sample_env (browse (Some "s3cret")) (store_of_one 101%N) =
       (Responded (mkResponse 200 []
          (Json true None (Some 1)
             (Some (WaitlistData
                [ Waitlist.mkView 101%N "ada@example.org" 1000 "landing-page" ])))),
        store_of_one 101%N)
  /\ handle GetWaitlistAll sample_env (browse (Some "s3cret")) (store_of_one 102%N) =
       (Responded (mkResponse 200 []
          (Json true None (Some 1)
             (Some (WaitlistData
                [ Waitlist.mkView 102%N "ada@example.org" 1000 "landing-page" ])))),
        store_of_one 102%N)
  /\ fst (handle GetWaitlistAll sample_env (browse (Some "s3cret"))
            (store_of_one 101%N)) <>
     fst (handle GetWaitlistAll sample_env (browse (Some "s3cret"))
            (store_of_one 102%N)).
Proof.
  repeat split; try reflexivity. discriminate.
Qed.

(** C7, amended: every successful call of an admin listing or export returns
    the whole collection, ordered by timestamp with no record before a later
    one; a listing holds of each record its [_id], email, timestamp and
    source (and its message, for thoughts) and nothing else of it, with the
    number of records; an export holds the header and then the line of each
    record.  The call writes nothing. *)
Theorem admin_results_latest_first
    (r : Route) (env : Env) (req : Request) (db db' : DB) (resp : Response) :
  is_admin r = true ->
  handle r env req db = (Responded resp, db') ->
  status resp = 200 ->
  whole_collection r env db resp /\ db' = db.
Proof.
  intros Hr Hh Hs.
  destruct (strict_eq (x_api_key req) (ADMIN_API_KEY env)) eqn:Hk.
  - destruct (connected db) eqn:Hc.
    + destruct (admin_granted r env req db Hr Hk Hc) as (resp0 & H0 & _ & Hret).
      rewrite H0 in Hh. injection Hh as -> ->. now split.
    + rewrite (admin_down r env req db Hr Hk Hc) in Hh.
      injection Hh as <- _. discriminate.
  - rewrite (admin_refused r env req db Hr Hk) in Hh.
    injection Hh as <- _. discriminate.
Qed.

(** Run on the thoughts listing of the sample store, with the right key: the
    two thoughts, the later one first. *)
Lemma admin_results_latest_first_witness :
  handle GetThoughtsAll sample_env (browse (Some "s3cret")) sample_store =
    (Responded (mkResponse 200 []
       (Json true None (Some 2)
          (Some (ThoughtsData
             [ Thoughts.mkView 202%N None "More charts would help" 2500
                 "landing-page";
               Thoughts.mkView 201%N (Some "ada@example.org") "Ship it, please"
                 1500 "landing-page" ])))),
     sample_store)
  /\ exists resp,
       handle GetThoughtsAll sample_env (browse (Some "s3cret")) sample_store =
         (Responded resp, sample_store)
       /\ status resp = 200
       /\ whole_collection GetThoughtsAll sample_env sample_store resp.
Proof.
  split; [reflexivity|].
  eexists. split; [reflexivity|]. split; [reflexivity|].
  apply (proj1 (@admin_results_latest_first GetThoughtsAll sample_env
                  (browse (Some "s3cret")) sample_store sample_store _
                  eq_refl eq_refl eq_refl)).
Defined.

(** ** Errors *)

Lemma count_down (countDocuments : M nat) (db : DB) :
  countDocuments db = (Throw ConnectionError, db) ->
  try_catch (count_body countDocuments) server_error db =
    (Responded (reply 500 false "Server error"), db).
Proof.
  intros H. rewrite try_catch_throw with (e := ConnectionError) (db' := db);
    [reflexivity|].
  unfold count_body. now apply bind_throw.
Qed.

Lemma try_catch_boundary (m : M Response) (h : Error -> Response) (db : DB) :
  (forall e, status (h e) = 500
             /\ exists text, body (h e) = Json false (Some text) None None) ->
  exists resp,
    fst (try_catch m h db) = Responded resp
    /\ forall e db', m db = (Throw e, db') ->
         snd (try_catch m h db) = db'
         /\ status resp = 500
         /\ exists text, body resp = Json false (Some text) None None.
Proof.
  intros Hh. unfold try_catch.
  destruct (m db) as [[r|e] d]; cbn; eexists; (split; [reflexivity|]).
  - intros e db' He. discriminate He.
  - intros e' db' He. inversion He; subst.
    destruct (Hh e') as [Hs Hb]. now repeat split.
Qed.

Lemma catch_is_500 (h : Error -> Response) :
  h = post_waitlist_catch \/ h = post_thoughts_catch \/ h = server_error ->
  forall e, status (h e) = 500
            /\ exists text, body (h e) = Json false (Some text) None None.
Proof.
  intros [->|[->| ->]] e; (split; [reflexivity | eexists; reflexivity]).
Qed.

(** C8: whatever the route and the request, the handler ends with a
    response, never with an error left uncaught; when the code of the route
    throws, the response is 500 with the JSON body [{success: false,
    message}]; that is what a count query answers when the database cannot
    be reached. *)
Theorem errors_caught_at_boundary
    (r : Route) (env : Env) (req : Request) (db : DB) :
  exists resp,
    fst (handle r env req db) = Responded resp
    /\ (forall e db', route_body r env req db = (Throw e, db') ->
          snd (handle r env req db) = db'
          /\ status resp = 500
          /\ exists text, body resp = Json false (Some text) None None)
    /\ (connected db = false ->
          (r = GetWaitlistCount \/ r = GetThoughtsCount) ->
          handle r env req db = (Responded (reply 500 false "Server error"), db)).
Proof.
  destruct r; unfold handle, route_body.
  9:{ eexists. split; [reflexivity|]. split.
      - intros e db' He. discriminate He.
      - intros _ [Hr|Hr]; discriminate Hr. }
  all: match goal with
       | |- context [try_catch ?m ?h ?d] =>
           destruct (try_catch_boundary m h d) as (resp & Hresp & Hthrow);
             [apply catch_is_500; auto |]
       end;
       exists resp; split; [exact Hresp|]; split; [exact Hthrow|];
       intros Hd [Hr|Hr]; try discriminate Hr.
  - apply count_down. unfold Waitlist.countDocuments. now apply operation_down.
  - apply count_down. unfold Thoughts.countDocuments. now apply operation_down.
Qed.

(** ** Startup *)

(** [connectDB(retries)] calls [mongoose.connect] at least once and at most
    [retries + 1] times, waits 5000 ms before each call but the first, and
    never exits. *)
Lemma connectDB_bounded (reachable : nat -> bool) (retries k : nat) :
  let trace := fst (connectDB reachable k retries) in
  1 <= attempts trace <= S retries
  /\ List.length (timers trace) = attempts trace - 1
  /\ Forall (fun ms => ms = 5000%Z) (timers trace)
  /\ existsb is_exit trace = false.
Proof.
  revert k. induction retries as [|n IH]; intros k; cbn [connectDB].
  - destruct (reachable k); cbn; repeat split; auto; lia.
  - destruct (reachable k); [cbn; repeat split; auto; lia|].
    specialize (IH (S k)).
    destruct (connectDB reachable (S k) n) as [trace up].
    cbn [fst] in *. destruct IH as (Ha & Ht & Hf & He).
    unfold attempts in *. cbn. fold (timers trace).
    repeat split; try lia; [now constructor | exact He].
Qed.

(** When no call succeeds, all [retries + 1] are made and no connection
    is up at the end. *)
Lemma connectDB_unreachable (reachable : nat -> bool) (retries k : nat) :
  (forall j, j <= retries -> reachable (k + j) = false) ->
  attempts (fst (connectDB reachable k retries)) = S retries
  /\ snd (connectDB reachable k retries) = false.
Proof.
  revert k. induction retries as [|n IH]; intros k H; cbn [connectDB].
  - rewrite <- (Nat.add_0_r k), H by lia. now cbn.
  - pose proof (H 0 ltac:(lia)) as H0. rewrite Nat.add_0_r in H0. rewrite H0.
    destruct (IH (S k)) as [Ha Hu].
    { intros j Hj. replace (S k + j) with (k + S j) by lia. apply H. lia. }
    destruct (connectDB reachable (S k) n) as [trace up].
    cbn [fst snd] in *. unfold attempts in *. cbn. now rewrite Ha.
Qed.

Lemma post_waitlist_down (env : Env) (req : Request) (db : DB) :
  connected db = false ->
  answered_by_guard PostWaitlist env req \/ answered_500 PostWaitlist env req db.
Proof.
  intros Hd. unfold answered_by_guard, answered_500, handle, try_catch.
  unfold post_waitlist_body.
  destruct (truthy (body_email req)) eqn:Ht; cbn [negb].
  - right. destruct (body_email req) as [| |b|n|s]; try discriminate Ht;
      try (eexists; reflexivity).
    cbn [call_toLowerCase]. rewrite bind_ret.
    erewrite bind_throw
      by (unfold Waitlist.findOne; now apply operation_down).
    eexists; reflexivity.
  - left. eexists. split; [|intros db0; reflexivity]. left; reflexivity.
Qed.

Lemma post_thoughts_down (env : Env) (req : Request) (db : DB) :
  connected db = false ->
  answered_by_guard PostThoughts env req \/ answered_500 PostThoughts env req db.
Proof.
  intros Hd. unfold answered_by_guard, answered_500, handle, try_catch.
  unfold post_thoughts_body.
  destruct (truthy (body_message req)) eqn:Ht; cbn [negb].
  2:{ left. eexists. split; [|intros db0; reflexivity]. left; reflexivity. }
  destruct (length_lt (body_message req) 10) eqn:Hl.
  { left. eexists. split; [|intros db0; reflexivity]. left; reflexivity. }
  destruct (truthy (body_email req)) eqn:He.
  - destruct (body_email req) as [| |b|n|s]; try discriminate He;
      try (right; eexists; reflexivity).
    cbn [call_toLowerCase]. rewrite !bind_ret.
    destruct (negb (JsString.isEmpty (JsString.trim (JsString.toLowerCase s)))
              && negb (RegExp.test RegExp.emailPattern
                         (JsString.trim (JsString.toLowerCase s)))).
    { left. eexists. split; [|intros db0; reflexivity]. left; reflexivity. }
    right. destruct (body_message req) as [| |b|n|m]; try discriminate Ht;
      try (eexists; reflexivity).
    cbn [call_trim]. rewrite bind_ret.
    match goal with |- context [Thoughts.save ?d] =>
      destruct (Thoughts.validate d) eqn:Hv;
      [ erewrite bind_throw
          by (unfold Thoughts.save; rewrite Hv; now apply operation_down)
      | erewrite bind_throw by (now apply thoughts_save_invalid) ]
    end; eexists; reflexivity.
  - rewrite bind_ret. cbn iota.
    right. destruct (body_message req) as [| |b|n|m]; try discriminate Ht;
      try (eexists; reflexivity).
    cbn [call_trim]. rewrite bind_ret.
    match goal with |- context [Thoughts.save ?d] =>
      destruct (Thoughts.validate d) eqn:Hv;
      [ erewrite bind_throw
          by (unfold Thoughts.save; rewrite Hv; now apply operation_down)
      | erewrite bind_throw by (now apply thoughts_save_invalid) ]
    end; eexists; reflexivity.
Qed.

(** With the database out of reach, a request to any route but the health
    check is either answered by a guard of the route, whatever the database,
    or answered 500. *)
Lemma routes_down (r : Route) (env : Env) (req : Request) (db : DB) :
  connected db = false ->
  r <> GetHealth ->
  answered_by_guard r env req \/ answered_500 r env req db.
Proof.
  intros Hd Hr.
  assert (Hadmin : is_admin r = true ->
            answered_by_guard r env req \/ answered_500 r env req db).
  { intros Ha.
    destruct (strict_eq (x_api_key req) (ADMIN_API_KEY env)) eqn:Hk.
    - right. eexists. now apply admin_down.
    - left. eexists. split; [|intros db0; now apply admin_refused].
      right; reflexivity. }
  destruct r; try (apply Hadmin; reflexivity).
  - now apply post_waitlist_down.
  - now apply post_thoughts_down.
  - right. eexists. apply count_down.
    unfold Waitlist.countDocuments. now apply operation_down.
  - right. eexists. apply count_down.
    unfold Thoughts.countDocuments. now apply operation_down.
  - contradiction.
Qed.

(** C9: startup calls [mongoose.connect] at least once and at most 4 times
    (a first attempt and up to 3 retries), each retry 5000 ms after the
    failure before it, and never exits the process.  When all 4 attempts
    fail no connection is up, and from then on the health check still
    answers 200 while a request to any other route is answered 500, unless a
    guard of the route answers it (400 or 401) without using the database. *)
Theorem startup_bounded_then_degraded (reachable : nat -> bool) :
  let trace := fst (startup reachable) in
  1 <= attempts trace <= 4
  /\ List.length (timers trace) = attempts trace - 1
  /\ Forall (fun ms => ms = 5000%Z) (timers trace)
  /\ existsb is_exit trace = false
  /\ ((forall k, k < 4 -> reachable k = false) ->
      attempts trace = 4
      /\ snd (startup reachable) = false
      /\ forall ws ts env req,
           let db := after_startup reachable ws ts in
           handle GetHealth env req db =
             (Responded (mkResponse 200 [] (HealthJson "ok" "Server is running")), db)
           /\ forall r, r <> GetHealth ->
                answered_by_guard r env req \/ answered_500 r env req db).
Proof.
  intros trace. subst trace. unfold startup.
  destruct (connectDB_bounded reachable 3 0) as (Ha & Ht & Hf & He).
  repeat (split; [assumption|]).
  intros Hall.
  destruct (connectDB_unreachable reachable 3 0) as [Hn Hu].
  { intros j Hj. apply Hall. cbn. lia. }
  split; [exact Hn|]. split; [exact Hu|].
  intros ws ts env req. split; [reflexivity|].
  intros r Hr. apply routes_down; [|exact Hr].
  unfold after_startup, startup. cbn [connected]. exact Hu.
Qed.

(** Run on a database that never answers. *)
Lemma startup_bounded_then_degraded_witness :
  let unreachable := fun _ : nat => false in
  attempts (fst (startup unreachable)) = 4
  /\ timers (fst (startup unreachable)) = [5000; 5000; 5000]%Z
  /\ snd (startup unreachable) = false
  /\ forall env req,
       let db := after_startup unreachable [] [] in
       handle GetHealth env req db =
         (Responded (mkResponse 200 [] (HealthJson "ok" "Server is running")), db)
       /\ (answered_by_guard GetWaitlistCount env req
           \/ answered_500 GetWaitlistCount env req db).
Proof.
  intros unreachable.
  destruct (startup_bounded_then_degraded unreachable)
    as (_ & _ & _ & _ & H).
  destruct (H (fun _ _ => eq_refl)) as (Ha & Hu & Hreq).
  split; [exact Ha|]. split; [reflexivity|]. split; [exact Hu|].
  intros env req. destruct (Hreq [] [] env req) as [Hh Hr].
  split; [exact Hh|]. apply Hr. discriminate.
Defined.

(** ** The thoughts export, read back *)

(** C6, where the code departs from it: the message is escaped, the email
    beside it is not.  A thought whose email holds double quotes is accepted
    and stored; its line of the export reads back as six fields, and the
    field under the Message heading is a piece of the email, not the stored
    message. *)
Theorem thoughts_export_misread_by_unescaped_email :
  let req := submit (JStr quoting_email) (JStr quoting_message) 1000 in
  let db := snd (handle PostThoughts sample_env req empty_db) in
  RegExp.test RegExp.emailPattern quoting_email = true
  /\ JsString.contains "," quoting_message
     && JsString.contains "034" quoting_message
     && JsString.contains "010" quoting_message = true
  /\ fst (handle PostThoughts sample_env req empty_db) =
       Responded (reply 201 true "Successfully saved your thoughts")
  /\ map ThoughtsDoc.message (thoughts db) = [quoting_message]
  /\ exists csv,
       handle GetThoughtsExport sample_env (browse (Some "s3cret")) db =
         (Responded (csv_response "thoughts.csv" csv), db)
       /\ Rfc4180.read csv =
            Some [ ["Email"; "Message"; "Date"; "Source"; "IP Address"];
                   ["x"; "y@z.w"; quoting_message; "11/2/2026, 10:20:00 PM";
                    "landing-page"; "203.0.113.7"] ].
Proof.
  cbv zeta. repeat (split; [reflexivity|]).
  eexists. split; reflexivity.
Qed.

Section ReadBack.
Import Rfc4180.

Lemma escape_quotes_plain (s : string) : no_quote s = true -> escape_quotes s = s.
Proof.
  unfold no_quote, escape_quotes.
  induction s as [|c s IH]; cbn [JsString.replaceAll JsString.all];
    [reflexivity|].
  intros H. apply andb_true_iff in H. destruct H as [Hc Hs].
  apply negb_true_iff in Hc. rewrite Hc. now rewrite IH.
Qed.

(** Inside a quoted field, the escaped text is read as the text. *)
Lemma parse_escaped (m cur : string) (fields : list string)
    (records : list (list string)) (rest : string) :
  parse Quoted cur fields records (escape_quotes m ++ rest) =
  parse Quoted (cur ++ m) fields records rest.
Proof.
  revert cur. unfold escape_quotes.
  induction m as [|c m IH]; intros cur; cbn [JsString.replaceAll].
  - simpl. now rewrite append_empty_r.
  - destruct (Ascii.eqb c "034") eqn:E.
    + apply Ascii.eqb_eq in E. subst c.
      rewrite append_assoc. unfold DQ at 1 2. cbn [append parse].
      cbn [Ascii.eqb Bool.eqb]. rewrite IH. unfold snoc. now rewrite append_assoc.
    + cbn [append parse]. rewrite E, IH. unfold snoc. now rewrite append_assoc.
Qed.

(** A line of the export whose copied cells are plain is read as the cells
    of its entry. *)
Lemma parse_thoughts_row (env : Env) (d : ThoughtsDoc.t)
    (records : list (list string)) (rest : string) :
  plain_cells env d = true ->
  parse FieldStart EmptyString [] records (thoughts_row env d ++ rest) =
  parse FieldStart EmptyString [] (records ++ [thoughts_cells env d])%list rest.
Proof.
  unfold plain_cells, thoughts_row, thoughts_cells. intros H.
  apply andb_true_iff in H. destruct H as [H Hi].
  apply andb_true_iff in H. destruct H as [H Hs].
  apply andb_true_iff in H. destruct H as [He Hd].
  rewrite <- (escape_quotes_plain _ He) at 1.
  rewrite <- (escape_quotes_plain _ Hd) at 1.
  rewrite <- (escape_quotes_plain _ Hs) at 1.
  rewrite <- (escape_quotes_plain _ Hi) at 1.
  repeat (rewrite append_assoc; simpl).
  repeat (rewrite parse_escaped; simpl).
  reflexivity.
Qed.

Lemma concat_cons (x : string) (l : list string) :
  String.concat EmptyString (x :: l) = x ++ String.concat EmptyString l.
Proof. destruct l; simpl; [now rewrite append_empty_r | reflexivity]. Qed.

Lemma parse_thoughts_rows (env : Env) (docs : list ThoughtsDoc.t)
    (records : list (list string)) :
  forallb (plain_cells env) docs = true ->
  parse FieldStart EmptyString [] records
    (String.concat EmptyString (map (thoughts_row env) docs)) =
  Some (records ++ map (thoughts_cells env) docs)%list.
Proof.
  revert records. induction docs as [|d docs IH]; intros records H.
  - simpl. now rewrite app_nil_r.
  - cbn [forallb] in H. apply andb_true_iff in H. destruct H as [Hd H].
    cbn [map]. rewrite concat_cons, parse_thoughts_row, IH by assumption.
    now rewrite <- app_assoc.
Qed.

Lemma forallb_perm {A} (p : A -> bool) (l l' : list A) :
  Permutation l l' -> forallb p l' = true -> forallb p l = true.
Proof.
  intros P H. rewrite forallb_forall in *.
  intros x Hx. apply H. eapply Permutation_in; eassumption.
Qed.

(** X4: the thoughts export reads back exactly, message included, whatever
    the messages hold, when the cells copied without escaping (email, date,
    source, address) hold no double quote: the records are the header and,
    latest first, the five cells of every stored entry. *)
Theorem thoughts_export_reads_back (env : Env) (req : Request) (db : DB) :
  strict_eq (x_api_key req) (ADMIN_API_KEY env) = true ->
  connected db = true ->
  forallb (plain_cells env) (thoughts db) = true ->
  exists csv docs,
    handle GetThoughtsExport env req db =
      (Responded (csv_response "thoughts.csv" csv), db)
    /\ latest_first ThoughtsDoc.timestamp (thoughts db) docs
    /\ read csv =
         Some (["Email"; "Message"; "Date"; "Source"; "IP Address"]
               :: map (thoughts_cells env) docs).
Proof.
  intros Hk Hc Hp.
  exists (build_csv thoughts_header (thoughts_row env)
            (sort_desc ThoughtsDoc.timestamp (thoughts db))).
  exists (sort_desc ThoughtsDoc.timestamp (thoughts db)).
  split; [|split; [apply latest_first_sort|]].
  - unfold handle, get_thoughts_export_body.
    rewrite admin_guard_pass by assumption.
    apply try_catch_ok. erewrite bind_ok; [reflexivity|].
    unfold Thoughts.find_sorted. now apply operation_up.
  - rewrite build_csv_concat. unfold read, thoughts_header. simpl.
    rewrite parse_thoughts_rows; [reflexivity|].
    eapply forallb_perm; [apply sort_desc_perm | exact Hp].
Qed.

End ReadBack.

(** Run on the sample store. *)
Lemma thoughts_export_reads_back_witness :
  exists csv docs,
    handle GetThoughtsExport sample_env (browse (Some "s3cret")) sample_store =
      (Responded (csv_response "thoughts.csv" csv), sample_store)
    /\ latest_first ThoughtsDoc.timestamp (thoughts sample_store) docs
    /\ Rfc4180.read csv =
         Some (["Email"; "Message"; "Date"; "Source"; "IP Address"]
               :: map (thoughts_cells sample_env) docs).
Proof.
  apply (thoughts_export_reads_back sample_env (browse (Some "s3cret")) sample_store);
    reflexivity.
Defined.

(** ** The invariants of the store *)

Section Preservation.
Variable I : DB -> Prop.

Lemma preserves_ret {A} (a : A) : preserves I (ret a).
Proof. intros db H. exact H. Qed.

Lemma preserves_throw {A} (e : Error) : preserves I (@throw A e).
Proof. intros db H. exact H. Qed.

Lemma preserves_bind {A B} (m : M A) (k : A -> M B) :
  preserves I m -> (forall a, preserves I (k a)) -> preserves I (bind m k).
Proof.
  intros Hm Hk db H. unfold bind. specialize (Hm db H).
  destruct (m db) as [[a|e] db']; cbn [snd] in *.
  - now apply Hk.
  - exact Hm.
Qed.

Lemma preserves_read {A} (f : DB -> A) :
  preserves I (operation (fun db => (f db, db))).
Proof. intros db H. unfold operation. now destruct (connected db). Qed.

Lemma preserves_if {A} (b : bool) (m1 m2 : M A) :
  preserves I m1 -> preserves I m2 -> preserves I (if b then m1 else m2).
Proof. now destruct b. Qed.

Lemma preserves_call_toLowerCase (v : jsval) : preserves I (call_toLowerCase v).
Proof. destruct v; first [apply preserves_throw | apply preserves_ret]. Qed.

Lemma preserves_call_trim (v : jsval) : preserves I (call_trim v).
Proof. destruct v; first [apply preserves_throw | apply preserves_ret]. Qed.

Lemma preserves_try_catch (m : M Response) (h : Error -> Response) (db : DB) :
  preserves I m -> I db -> I (snd (try_catch m h db)).
Proof.
  intros Hm H. specialize (Hm db H). unfold try_catch.
  now destruct (m db) as [[r|e] db'].
Qed.

End Preservation.

Create HintDb preserve.

#[local] Hint Resolve preserves_ret preserves_throw preserves_read
  preserves_call_toLowerCase preserves_call_trim : preserve.

Lemma store_ok_waitlist_save (d : WaitlistDoc.t) :
  normalize_email (WaitlistDoc.email d) = WaitlistDoc.email d ->
  preserves store_ok (Waitlist.save d).
Proof.
  intros Hnorm db (Hn & Hw & Ht). unfold Waitlist.save.
  destruct (Waitlist.validate d) eqn:Hv; cbn [negb]; [|now repeat split].
  destruct (connected db); cbn [negb]; [|now repeat split].
  destruct (existsb _ (waitlists db)) eqn:He; [now repeat split|].
  unfold store_ok. cbn [snd waitlists thoughts]. repeat split; [| |exact Ht].
  - rewrite map_app. cbn [map].
    apply NoDup_app; [exact Hn | repeat constructor; intros [] |].
    intros x Hx [Hd|[]]. subst x.
    apply in_map_iff in Hx. destruct Hx as (d' & Hd' & Hin).
    assert (existsb (fun d' => String.eqb (WaitlistDoc.email d') (WaitlistDoc.email d))
              (waitlists db) = true).
    { apply existsb_exists. exists d'. split; [exact Hin|].
      now apply String.eqb_eq. }
    congruence.
  - apply Forall_app. split; [exact Hw | now repeat constructor].
Qed.

Lemma store_ok_thoughts_save (d : ThoughtsDoc.t) :
  JsString.trim (ThoughtsDoc.message d) = ThoughtsDoc.message d ->
  preserves store_ok (Thoughts.save d).
Proof.
  intros Htrim db (Hn & Hw & Ht). unfold Thoughts.save, operation.
  destruct (Thoughts.validate d) eqn:Hv; cbn [negb]; [|now repeat split].
  destruct (connected db); [|now repeat split].
  unfold store_ok. cbn [snd waitlists thoughts].
  repeat split; [exact Hn | exact Hw |].
  apply Forall_app. split; [exact Ht | now repeat constructor].
Qed.

Lemma store_ok_admin (env : Env) (req : Request) (k : M Response) :
  preserves store_ok k -> preserves store_ok (admin_guard env req k).
Proof.
  intros Hk. unfold admin_guard. apply preserves_if; [apply preserves_ret | exact Hk].
Qed.

Lemma store_ok_route (r : Route) (env : Env) (req : Request) :
  preserves store_ok (route_body r env req).
Proof.
  destruct r; cbn [route_body].
  - unfold post_waitlist_body.
    apply preserves_if; [auto with preserve|].
    apply preserves_bind; [auto with preserve|]. intros lowered.
    apply preserves_bind; [apply preserves_read|]. intros [found|].
    + auto with preserve.
    + apply preserves_bind; [auto with preserve|]. intros lowered'.
      apply preserves_bind;
        [apply store_ok_waitlist_save, normalize_email_idem|]. intros _.
      apply preserves_bind; [apply preserves_read|]. auto with preserve.
  - unfold post_thoughts_body.
    apply preserves_if; [auto with preserve|].
    apply preserves_if; [auto with preserve|].
    apply preserves_bind.
    { apply preserves_if; [|auto with preserve].
      apply preserves_bind; auto with preserve. }
    intros normalizedEmail. apply preserves_if; [auto with preserve|].
    apply preserves_bind; [auto with preserve|]. intros trimmed.
    apply preserves_bind; [apply store_ok_thoughts_save, trim_idem|].
    auto with preserve.
  - apply preserves_bind; [apply preserves_read | auto with preserve].
  - apply preserves_bind; [apply preserves_read | auto with preserve].
  - apply store_ok_admin, preserves_bind; [apply preserves_read | auto with preserve].
  - apply store_ok_admin, preserves_bind; [apply preserves_read | auto with preserve].
  - apply store_ok_admin, preserves_bind; [apply preserves_read | auto with preserve].
  - apply store_ok_admin, preserves_bind; [apply preserves_read | auto with preserve].
  - apply preserves_ret.
Qed.

(** Every handler keeps the invariants of the store. *)
Lemma store_ok_handle (r : Route) (env : Env) (req : Request) (db : DB) :
  store_ok db -> store_ok (snd (handle r env req db)).
Proof.
  intros H. pose proof (store_ok_route r env req) as Hr.
  destruct r; cbn [handle route_body] in *;
    try (now apply preserves_try_catch).
  exact H.
Qed.

(** X5: whatever requests are served, starting from empty collections: no two
    waitlist entries share an email, every stored email is in normal form and
    matches the pattern, and every stored message is trimmed and has at least
    10 characters. *)
Theorem store_invariants (env : Env) (reqs : list (Route * Request)) (c : bool) :
  let db := serve env reqs (mkDB c [] []) in
  NoDup (map WaitlistDoc.email (waitlists db))
  /\ Forall (fun d => normalize_email (WaitlistDoc.email d) = WaitlistDoc.email d
                      /\ RegExp.test RegExp.emailPattern (WaitlistDoc.email d) = true)
            (waitlists db)
  /\ Forall (fun d => JsString.trim (ThoughtsDoc.message d) = ThoughtsDoc.message d
                      /\ 10 <= String.length (ThoughtsDoc.message d))
            (thoughts db).
Proof.
  intros db.
  assert (H : store_ok db).
  { subst db. assert (H0 : store_ok (mkDB c [] [])) by (repeat split; constructor).
    revert H0. generalize (mkDB c [] []). induction reqs as [|[r req] rest IH];
      intros d Hd; cbn [serve]; [exact Hd|].
    apply IH. now apply store_ok_handle. }
  destruct H as (Hn & Hw & Ht). split; [exact Hn|]. split.
  - eapply Forall_impl; [|exact Hw]. intros d [Hd Hnorm].
    unfold Waitlist.validate in Hd. apply andb_true_iff in Hd.
    destruct Hd as [_ Hd]. now split.
  - eapply Forall_impl; [|exact Ht]. intros d [Hd Htrim].
    unfold Thoughts.validate in Hd. apply andb_true_iff in Hd.
    destruct Hd as [_ Hd]. split; [exact Htrim | now apply Nat.leb_le].
Qed.

(** ** Further properties of the handlers *)

Lemma strict_eq_iff (a b : option string) : strict_eq a b = true <-> a = b.
Proof.
  destruct a as [x|], b as [y|]; simpl; split; intros H;
    try discriminate; try reflexivity.
  - apply String.eqb_eq in H. now subst.
  - injection H as ->. apply String.eqb_refl.
Qed.

(** X1: on the four admin routes the header is compared with the configured
    key by equality: a header that is not the configured key (a missing one
    when a key is configured, a different string) is answered 401 with
    [{success: false}] and no records, and an answer 200 means the header was
    the configured key. *)
Theorem admin_gate_exact (r : Route) (env : Env) (req : Request) (db : DB) :
  is_admin r = true ->
  (x_api_key req <> ADMIN_API_KEY env ->
     exists resp,
       handle r env req db = (Responded resp, db)
       /\ status resp = 401 /\ success_of resp = Some false
       /\ data_of resp = None /\ text_of resp = None)
  /\ (forall resp db', handle r env req db = (Responded resp, db') ->
        status resp = 200 -> x_api_key req = ADMIN_API_KEY env).
Proof.
  intros Hr. split.
  - intros Hne. exists (reply 401 false "Unauthorized").
    split; [|now repeat split].
    apply admin_refused; [exact Hr|].
    destruct (strict_eq (x_api_key req) (ADMIN_API_KEY env)) eqn:E; [|reflexivity].
    apply strict_eq_iff in E. contradiction.
  - intros resp db' Hh Hs.
    destruct (strict_eq (x_api_key req) (ADMIN_API_KEY env)) eqn:E.
    + now apply strict_eq_iff.
    + rewrite (admin_refused r env req db Hr E) in Hh.
      injection Hh as <- _. discriminate.
Qed.

(** Run on a key that differs from the configured one in its last letter. *)
Lemma admin_gate_exact_witness :
  x_api_key (browse (Some "s3creT")) <> ADMIN_API_KEY sample_env
  /\ exists resp,
       handle GetWaitlistExport sample_env (browse (Some "s3creT")) sample_store =
         (Responded resp, sample_store)
       /\ status resp = 401 /\ success_of resp = Some false
       /\ data_of resp = None /\ text_of resp = None.
Proof.
  assert (H : x_api_key (browse (Some "s3creT")) <> ADMIN_API_KEY sample_env)
    by discriminate.
  split; [exact H|].
  exact (proj1 (admin_gate_exact GetWaitlistExport sample_env
                  (browse (Some "s3creT")) sample_store eq_refl) H).
Defined.

(** X2: a thoughts submission whose message has at least 10 characters once
    trimmed, and whose email is absent or has a normal form that is empty or
    matches the pattern, is stored (message trimmed, email normalized) and
    answered 201, when the database is connected. *)
Theorem thoughts_accepted (env : Env) (req : Request) (db : DB) (m : string) :
  body_message req = JStr m ->
  10 <= String.length (JsString.trim m) ->
  email_passes (body_email req) = true ->
  connected db = true ->
  exists entry,
    handle PostThoughts env req db =
      (Responded (reply 201 true "Successfully saved your thoughts"),
       mkDB true (waitlists db) (thoughts db ++ [entry]))
    /\ ThoughtsDoc.message entry = JsString.trim m
    /\ ThoughtsDoc.email entry = normalized_email (body_email req).
Proof.
  intros Hm Hl He Hc. eexists.
  split; [apply (thoughts_message_long env req db m); assumption|].
  unfold Thoughts.new. cbn [ThoughtsDoc.message ThoughtsDoc.email].
  split; [apply trim_idem|].
  destruct (body_email req) as [| |b|n|s]; try reflexivity.
  cbn [normalized_email]. destruct (JsString.isEmpty s); [reflexivity|].
  cbn [option_map]. now rewrite normalize_email_idem.
Qed.

(** Run on a padded message and a padded, capitalized address. *)
Lemma thoughts_accepted_witness :
  let req := submit (JStr " Ada@Example.org") (JStr "  More charts, please.  ") 1000 in
  exists entry,
    handle PostThoughts sample_env req empty_db =
      (Responded (reply 201 true "Successfully saved your thoughts"),
       mkDB true [] [entry])
    /\ ThoughtsDoc.message entry = "More charts, please."
    /\ ThoughtsDoc.email entry = Some "ada@example.org".
Proof.
  intros req.
  apply (thoughts_accepted sample_env req empty_db "  More charts, please.  ");
    try reflexivity.
  vm_compute. lia.
Defined.

(** X3: a thoughts submission whose message is missing, or is a string of
    fewer than 10 characters as submitted, is answered 400 with
    [{success: false}] and nothing is stored. *)
Theorem thoughts_rejected (env : Env) (req : Request) (db : DB) :
  truthy (body_message req) = false
  \/ (exists m, body_message req = JStr m /\ String.length m < 10) ->
  exists text,
    handle PostThoughts env req db = (Responded (reply 400 false text), db).
Proof.
  intros [H|(m & Hm & Hl)].
  - eexists. now apply thoughts_message_missing.
  - now apply thoughts_message_short with (m := m).
Qed.

(** Run on a message of two characters. *)
Lemma thoughts_rejected_witness :
  exists text,
    handle PostThoughts sample_env (submit JUndefined (JStr "hi") 1000) empty_db =
      (Responded (reply 400 false text), empty_db).
Proof.
  apply (thoughts_rejected sample_env (submit JUndefined (JStr "hi") 1000) empty_db).
  right. exists "hi". split; [reflexivity | simpl; lia].
Defined.

(** ** The submission routes, case by case *)

(** The code of POST /api/thoughts past the checks of the message, for an
    email that is falsy or a string. *)
Lemma post_thoughts_email (req : Request) :
  truthy (body_message req) = true ->
  length_lt (body_message req) 10 = false ->
  truthy (body_email req) && negb (is_string (body_email req)) = false ->
  post_thoughts_body req =
    if negb (email_passes (body_email req)) then
      ret (reply 400 false "Invalid email format")
    else
      (trimmed <- call_trim (body_message req) ;;
       Thoughts.save
         (Thoughts.new (object_id req) (normalized_email (body_email req)) trimmed
            (ip req) (user_agent req) (now req)) ;;;
       ret (reply 201 true "Successfully saved your thoughts")).
Proof.
  intros Ht Hl Hns. unfold post_thoughts_body. rewrite Ht, Hl. cbn [negb].
  destruct (body_email req) as [| |b|n|s]; cbn in Hns |- *.
  - reflexivity.
  - reflexivity.
  - rewrite andb_true_r in Hns. subst b. reflexivity.
  - rewrite andb_true_r in Hns. rewrite Hns. reflexivity.
  - destruct (JsString.isEmpty s) eqn:Es; cbn.
    + destruct s; [|discriminate Es]. reflexivity.
    + rewrite !bind_ret.
      change (JsString.trim (JsString.toLowerCase s)) with (normalize_email s).
      destruct (JsString.isEmpty (normalize_email s)); cbn; [reflexivity|].
      destruct (RegExp.test RegExp.emailPattern (normalize_email s)); reflexivity.
Qed.

Lemma has_find (e : string) (db : DB) :
  find (fun d => String.eqb (WaitlistDoc.email d) (normalize_email e)) (waitlists db)
    = None ->
  Waitlist.has e db = false.
Proof.
  unfold Waitlist.has. induction (waitlists db) as [|d l IH]; simpl; [reflexivity|].
  destruct (String.eqb (WaitlistDoc.email d) (normalize_email e)); [discriminate|].
  exact IH.
Qed.

(** What POST /api/waitlist answers and writes, for every request and every
    state of the database. *)
Lemma post_waitlist_cases (env : Env) (req : Request) (db : DB) :
  handle PostWaitlist env req db =
    if negb (truthy (body_email req)) then
      (Responded (reply 400 false "Email is required"), db)
    else
      match body_email req with
      | JStr s =>
          if negb (connected db) then (Responded server_error_retry, db)
          else if Waitlist.has s db then
            (Responded (reply 409 false "This email is already registered"), db)
          else if RegExp.test RegExp.emailPattern (normalize_email s) then
            (Responded (waitlist_created (S (List.length (waitlists db)))),
             mkDB true (waitlists db ++ [waitlist_entry req s]) (thoughts db))
          else (Responded server_error_retry, db)
      | _ => (Responded server_error_retry, db)
      end.
Proof.
  destruct (truthy (body_email req)) eqn:Ht; cbn [negb].
  2:{ unfold handle, try_catch, post_waitlist_body. now rewrite Ht. }
  destruct (body_email req) as [| |b|n|s] eqn:He; try discriminate Ht;
    try (unfold handle, try_catch, post_waitlist_body; rewrite He, Ht; reflexivity).
  assert (Hne : JsString.isEmpty s = false)
    by (cbn in Ht; now apply negb_true_iff in Ht).
  destruct (connected db) eqn:Hc; cbn [negb].
  - destruct (Waitlist.has s db) eqn:Hh.
    + now apply waitlist_stored with (e := s).
    + destruct (RegExp.test RegExp.emailPattern (normalize_email s)) eqn:Hv.
      * now apply waitlist_fresh.
      * unfold handle. rewrite (post_waitlist_string _ _ He Hne).
        rewrite try_catch_throw with (e := ValidationError) (db' := db);
          [reflexivity|].
        erewrite bind_ok by (apply findOne_up; exact Hc).
        rewrite normalize_email_lower, (find_existsb _ _ Hh).
        eapply bind_throw. apply waitlist_save_invalid.
        unfold Waitlist.validate. rewrite new_waitlist_email, Hv.
        apply andb_false_r.
  - unfold handle. rewrite (post_waitlist_string _ _ He Hne).
    rewrite try_catch_throw with (e := ConnectionError) (db' := db);
      [reflexivity|].
    eapply bind_throw. unfold Waitlist.findOne. now apply operation_down.
Qed.

Lemma thoughts_validate_new (req : Request) (m : string) :
  email_passes (body_email req) = true ->
  Thoughts.validate (thoughts_entry req m) = (10 <=? String.length (JsString.trim m))%nat.
Proof.
  intros Hp. unfold Thoughts.validate, thoughts_entry, Thoughts.new.
  cbn [ThoughtsDoc.email ThoughtsDoc.message].
  rewrite email_passes_validates by assumption. rewrite trim_idem. cbn [andb].
  destruct (10 <=? String.length (JsString.trim m))%nat eqn:E.
  - apply Nat.leb_le in E. rewrite isEmpty_length by lia. reflexivity.
  - apply andb_false_r.
Qed.

(** What POST /api/thoughts answers and writes, for every request and every
    state of the database. *)
Lemma post_thoughts_cases (env : Env) (req : Request) (db : DB) :
  handle PostThoughts env req db =
    if negb (truthy (body_message req)) then
      (Responded (reply 400 false "Message is required"), db)
    else if length_lt (body_message req) 10 then
      (Responded (reply 400 false "Message must be at least 10 characters long"), db)
    else if truthy (body_email req) && negb (is_string (body_email req)) then
      (Responded server_error_retry, db)
    else if negb (email_passes (body_email req)) then
      (Responded (reply 400 false "Invalid email format"), db)
    else
      match body_message req with
      | JStr m =>
          if (10 <=? String.length (JsString.trim m))%nat && connected db then
            (Responded (reply 201 true "Successfully saved your thoughts"),
             mkDB true (waitlists db) (thoughts db ++ [thoughts_entry req m]))
          else (Responded server_error_retry, db)
      | _ => (Responded server_error_retry, db)
      end.
Proof.
  destruct (truthy (body_message req)) eqn:Ht; cbn [negb].
  2:{ unfold handle, try_catch, post_thoughts_body. now rewrite Ht. }
  destruct (length_lt (body_message req) 10) eqn:Hl.
  { unfold handle, try_catch, post_thoughts_body. now rewrite Ht, Hl. }
  destruct (truthy (body_email req) && negb (is_string (body_email req))) eqn:Hns.
  { unfold handle, try_catch, post_thoughts_body. rewrite Ht, Hl. cbn [negb].
    destruct (body_email req) as [| |b|n|s]; try discriminate Hns;
      cbn in Hns |- *.
    - rewrite andb_true_r in Hns. subst b. reflexivity.
    - rewrite andb_true_r in Hns. rewrite Hns. reflexivity.
    - now rewrite andb_false_r in Hns. }
  unfold handle. rewrite (post_thoughts_email req Ht Hl Hns).
  destruct (email_passes (body_email req)) eqn:Hp; cbn [negb]; [|reflexivity].
  destruct (body_message req) as [| |b|n|m] eqn:Hm; try discriminate Ht;
    try reflexivity.
  cbn [call_trim]. rewrite bind_ret.
  fold (thoughts_entry req m).
  destruct ((10 <=? String.length (JsString.trim m))%nat && connected db) eqn:E.
  - apply andb_true_iff in E. destruct E as [E Hc].
    apply try_catch_ok. erewrite bind_ok; [reflexivity|].
    apply thoughts_save_ok; [|exact Hc]. now rewrite thoughts_validate_new.
  - apply andb_false_iff in E.
    destruct (10 <=? String.length (JsString.trim m))%nat eqn:E1.
    + destruct E as [E|Hc]; [discriminate|].
      rewrite try_catch_throw with (e := ConnectionError) (db' := db);
        [reflexivity|].
      eapply bind_throw. unfold Thoughts.save.
      rewrite thoughts_validate_new, E1 by assumption. cbn [negb].
      now apply operation_down.
    + rewrite try_catch_throw with (e := ValidationError) (db' := db);
        [reflexivity|].
      eapply bind_throw. apply thoughts_save_invalid.
      now rewrite thoughts_validate_new.
Qed.



Lemma preserves_admin (I : DB -> Prop) (env : Env) (req : Request) (k : M Response) :
  preserves I k -> preserves I (admin_guard env req k).
Proof.
  intros Hk. unfold admin_guard. apply preserves_if; [apply preserves_ret | exact Hk].
Qed.

(** The code of a route other than the two submissions keeps any property
    of the database. *)
Lemma route_reads_only (I : DB -> Prop) (r : Route) (env : Env) (req : Request) :
  is_post r = false -> preserves I (route_body r env req).
Proof.
  destruct r; try discriminate; intros _; cbn [route_body];
    try apply preserves_admin;
    try (apply preserves_bind; [apply preserves_read | intros; apply preserves_ret]).
  apply preserves_ret.
Qed.

(** A route other than the two submissions leaves the database as it was. *)
Lemma handle_reads_only (r : Route) (env : Env) (req : Request) (db : DB) :
  is_post r = false -> snd (handle r env req db) = db.
Proof.
  intros Hr.
  pose proof (route_reads_only (fun d => d = db) r env req Hr) as H.
  destruct r; try discriminate; cbn [handle route_body] in *;
    try (now apply preserves_try_catch).
  reflexivity.
Qed.

(** What a count route answers. *)
Lemma count_cases (countDocuments : M nat) (size : DB -> nat) (db : DB) :
  countDocuments = operation (fun db => (size db, db)) ->
  try_catch (count_body countDocuments) server_error db =
    if connected db
    then (Responded (mkResponse 200 [] (Json true None (Some (size db)) None)), db)
    else (Responded (reply 500 false "Server error"), db).
Proof.
  intros ->. destruct (connected db) eqn:Hc.
  - apply try_catch_ok. unfold count_body.
    erewrite bind_ok by (now apply operation_up). reflexivity.
  - apply count_down. now apply operation_down.
Qed.

(** What an admin route can answer. *)
Lemma admin_cases (r : Route) (env : Env) (req : Request) (db : DB) :
  is_admin r = true ->
  exists resp,
    handle r env req db = (Responded resp, db)
    /\ In (status resp) [200; 401; 500]
    /\ well_shaped r resp.
Proof.
  intros Hr.
  destruct (strict_eq (x_api_key req) (ADMIN_API_KEY env)) eqn:Hk.
  - destruct (connected db) eqn:Hc.
    + destruct r; try discriminate; unfold handle,
        get_waitlist_all_body, get_thoughts_all_body,
        get_waitlist_export_body, get_thoughts_export_body;
        rewrite admin_guard_pass by assumption;
        (erewrite try_catch_ok
           by (erewrite bind_ok;
                 [reflexivity
                 | unfold Waitlist.find_sorted, Thoughts.find_sorted;
                   now apply operation_up]));
        eexists; (split; [reflexivity|]); cbn; (split; [auto|]);
        unfold well_shaped; cbn; repeat split; auto; discriminate.
    + exists (reply 500 false "Server error"). split; [now apply admin_down|].
      split; [cbn; auto|]. unfold well_shaped. cbn. repeat split; discriminate.
  - exists (reply 401 false "Unauthorized"). split; [now apply admin_refused|].
    split; [cbn; auto|]. unfold well_shaped. cbn. repeat split; discriminate.
Qed.

(** X6: every answer of every route has one of the statuses of its route
    (201 only from the two submissions, 409 only from the waitlist submission,
    401 only from the admin routes, 400 only from the submissions) and is well
    shaped: [success] is true exactly for 200 and 201, a failure carries a
    message and no count or data, CSV text comes only from an export answered
    200. *)
Theorem response_contract (r : Route) (env : Env) (req : Request) (db : DB) :
  exists resp,
    fst (handle r env req db) = Responded resp
    /\ In (status resp) (allowed_status r)
    /\ well_shaped r resp.
Proof.
  destruct (is_admin r) eqn:Ha.
  { destruct (admin_cases r env req db Ha) as (resp & Hh & Hs & Hw).
    exists resp. rewrite Hh. split; [reflexivity|]. split; [|exact Hw].
    destruct r; try discriminate; exact Hs. }
  destruct r; try discriminate.
  - rewrite post_waitlist_cases.
    repeat match goal with
    | |- context [if ?b then _ else _] => destruct b
    | |- context [match ?v with JStr _ => _ | _ => _ end] => destruct v
    end;
    eexists; (split; [reflexivity|]); unfold well_shaped; cbn;
      (split; [tauto|]); repeat split; discriminate.
  - rewrite post_thoughts_cases.
    repeat match goal with
    | |- context [if ?b then _ else _] => destruct b
    | |- context [match ?v with JStr _ => _ | _ => _ end] => destruct v
    end;
    eexists; (split; [reflexivity|]); unfold well_shaped; cbn;
      (split; [tauto|]); repeat split; discriminate.
  - unfold handle. rewrite (count_cases _ (fun d => List.length (waitlists d))) by reflexivity.
    destruct (connected db); eexists; (split; [reflexivity|]);
      unfold well_shaped; cbn; (split; [tauto|]); repeat split; discriminate.
  - unfold handle. rewrite (count_cases _ (fun d => List.length (thoughts d))) by reflexivity.
    destruct (connected db); eexists; (split; [reflexivity|]);
      unfold well_shaped; cbn; (split; [tauto|]); repeat split; discriminate.
  - eexists. split; [reflexivity|]. unfold well_shaped. cbn. tauto.
Qed.

Lemma reads_never_201 (r : Route) (env : Env) (req : Request) (db : DB) :
  is_post r = false ->
  exists resp, fst (handle r env req db) = Responded resp /\ status resp <> 201.
Proof.
  intros Hp. destruct (is_admin r) eqn:Ha.
  { destruct (admin_cases r env req db Ha) as (resp & Hh & Hs & _).
    exists resp. rewrite Hh. split; [reflexivity|].
    intros E. rewrite E in Hs. cbn in Hs. intuition discriminate. }
  destruct r; try discriminate.
  - unfold handle. rewrite (count_cases _ (fun d => List.length (waitlists d))) by reflexivity.
    destruct (connected db); eexists; (split; [reflexivity|]); discriminate.
  - unfold handle. rewrite (count_cases _ (fun d => List.length (thoughts d))) by reflexivity.
    destruct (connected db); eexists; (split; [reflexivity|]); discriminate.
  - eexists. split; [reflexivity|]. discriminate.
Qed.

Ltac answered_unwritten :=
  eexists; split; [reflexivity|];
  split; [intros _; reflexivity|];
  split; [intros _; reflexivity|];
  let E := fresh "E" in intros E; discriminate E.

Ltac answered_201 :=
  eexists; split; [reflexivity|];
  split; [let E := fresh "E" in intros E; discriminate E|];
  split; [let E := fresh "E" in intros E; cbn in E; intuition discriminate|];
  intros _.

(** X7: the writes of the server come from its two submission routes.  Every
    other route leaves the database exactly as it was, whatever it answers;
    so does any request answered 200, 400, 401 or 409.  A request answered
    201 is a submission that found the connection up and appended one
    document to the collection of its route, the other collection untouched.
    (Of an answer 500 nothing is said here.) *)
Theorem writes_come_from_submissions
    (r : Route) (env : Env) (req : Request) (db : DB) :
  exists resp,
    fst (handle r env req db) = Responded resp
    /\ (is_post r = false -> snd (handle r env req db) = db)
    /\ (In (status resp) [200; 400; 401; 409] -> snd (handle r env req db) = db)
    /\ (status resp = 201 ->
        connected db = true
        /\ ((r = PostWaitlist
             /\ exists d, snd (handle r env req db) =
                            mkDB true (waitlists db ++ [d]) (thoughts db))
            \/ (r = PostThoughts
                /\ exists d, snd (handle r env req db) =
                               mkDB true (waitlists db) (thoughts db ++ [d])))).
Proof.
  destruct (is_post r) eqn:Hp.
  - destruct r; try discriminate.
    + rewrite post_waitlist_cases.
      destruct (negb (truthy (body_email req))); [answered_unwritten|].
      destruct (body_email req) as [| |b|n|s]; try answered_unwritten.
      destruct (connected db) eqn:Hc; cbn [negb]; [|answered_unwritten].
      destruct (Waitlist.has s db); [answered_unwritten|].
      destruct (RegExp.test RegExp.emailPattern (normalize_email s));
        [|answered_unwritten].
      answered_201. split; [reflexivity|]. left. split; [reflexivity|].
      eexists. reflexivity.
    + rewrite post_thoughts_cases.
      repeat match goal with
      | |- context [if negb ?b then _ else _] => destruct b; cbn [negb]
      | |- context [if length_lt ?a ?b then _ else _] => destruct (length_lt a b)
      | |- context [if truthy ?a && ?b then _ else _] => destruct (truthy a && b)
      end;
      try answered_unwritten.
      destruct (body_message req) as [| |b|n|m]; try answered_unwritten.
      destruct ((10 <=? String.length (JsString.trim m))%nat && connected db) eqn:E;
        [|answered_unwritten].
      apply andb_true_iff in E. destruct E as [_ Hc].
      answered_201. split; [exact Hc|]. right. split; [reflexivity|].
      eexists. reflexivity.
  - destruct (reads_never_201 r env req db Hp) as (resp & Hf & Hs).
    exists resp. split; [exact Hf|].
    split; [intros _; now apply handle_reads_only|].
    split; [intros _; now apply handle_reads_only|].
    intros E. contradiction.
Qed.


(** *** POST /api/waitlist between its awaits *)

(** With nothing in between, the handler cut at its awaits is the handler. *)
Lemma post_waitlist_awaits_alone (env : Env) (req : Request) (db : DB) :
  handle_post_waitlist_awaits req [] [] db = handle PostWaitlist env req db.
Proof. reflexivity. Qed.

Lemma post_waitlist_awaits_string (req : Request) (e : string)
    (events1 events2 : list Event) :
  body_email req = JStr e ->
  JsString.isEmpty e = false ->
  post_waitlist_awaits req events1 events2 =
    (existingEmail <- Waitlist.findOne (JsString.toLowerCase e) ;;
     meanwhile events1 ;;;
     match existingEmail with
     | Some _ => ret (reply 409 false "This email is already registered")
     | None =>
         Waitlist.save (waitlist_entry req e) ;;;
         meanwhile events2 ;;;
         totalCount <- Waitlist.countDocuments ;;
         ret (waitlist_created totalCount)
     end).
Proof.
  intros He Hne. unfold post_waitlist_awaits. rewrite He. simpl. rewrite Hne.
  reflexivity.
Qed.

(** Events add documents at the end of a collection and remove none. *)
Lemma after_waitlists (events : list Event) (db : DB) :
  exists ws, waitlists (after events db) = (waitlists db ++ ws)%list.
Proof.
  revert db. induction events as [|e events IH]; intros db.
  - exists []. cbn. now rewrite app_nil_r.
  - destruct (IH (happen db e)) as [ws Hws]. cbn [after fold_left].
    fold (after events (happen db e)). rewrite Hws.
    destruct e; cbn [happen waitlists];
      [exists (d :: ws); now rewrite <- app_assoc | now exists ws ..].
Qed.

(** X8: POST /api/waitlist reads the count at a later await than the insert,
    so the count it answers is the size of the collection when it is read,
    not one more than when the request came.  For a valid address, with the
    connection up at the lookup and at the insert and the address still new
    at the insert, whatever happens between the awaits: the entry is stored;
    if the connection is up when the count is read, the answer is 201 with
    the size of the collection at that time, at least one more than at the
    start; if it is down, the answer is 500 and the entry is stored all the
    same. *)
Theorem count_is_read_after_insert
    (req : Request) (db : DB) (s : string) (events1 events2 : list Event) :
  body_email req = JStr s ->
  RegExp.test RegExp.emailPattern (normalize_email s) = true ->
  connected db = true ->
  connected (after events1 db) = true ->
  Waitlist.has s (after events1 db) = false ->
  let db1 := after events1 db in
  let db2 :=
    after events2
      (mkDB true (waitlists db1 ++ [waitlist_entry req s]) (thoughts db1)) in
  handle_post_waitlist_awaits req events1 events2 db =
    (Responded (if connected db2
                then waitlist_created (List.length (waitlists db2))
                else server_error_retry), db2)
  /\ In (waitlist_entry req s) (waitlists db2)
  /\ S (List.length (waitlists db)) <= List.length (waitlists db2).
Proof.
  intros He Hv Hc Hc1 Hn1 db1 db2.
  assert (Hne : JsString.isEmpty s = false).
  { destruct s; [|reflexivity]. vm_compute in Hv. discriminate. }
  destruct (after_waitlists events1 db) as [ws1 Hw1].
  destruct (after_waitlists events2
              (mkDB true (waitlists db1 ++ [waitlist_entry req s]) (thoughts db1)))
    as [ws2 Hw2].
  fold db1 in Hw1, Hc1, Hn1. fold db2 in Hw2. cbn [waitlists] in Hw2.
  assert (Hn : Waitlist.has s db = false).
  { unfold Waitlist.has in Hn1 |- *. rewrite Hw1, existsb_app in Hn1.
    now apply orb_false_iff in Hn1. }
  assert (Hrun : post_waitlist_awaits req events1 events2 db =
                 (totalCount <- Waitlist.countDocuments ;;
                  ret (waitlist_created totalCount)) db2).
  { rewrite (post_waitlist_awaits_string _ _ _ _ He Hne).
    erewrite bind_ok by (apply findOne_up; exact Hc).
    rewrite normalize_email_lower, (find_existsb _ _ Hn).
    erewrite bind_ok by reflexivity. fold db1.
    erewrite bind_ok.
    2:{ apply waitlist_save_ok; [| exact Hc1 |].
        - unfold Waitlist.validate, waitlist_entry. rewrite new_waitlist_email.
          now rewrite (email_not_empty _ Hv), Hv.
        - unfold waitlist_entry. rewrite new_waitlist_email. exact Hn1. }
    erewrite bind_ok by reflexivity. reflexivity. }
  split; [|split].
  - unfold handle_post_waitlist_awaits.
    destruct (connected db2) eqn:Hc2.
    + apply try_catch_ok. rewrite Hrun.
      erewrite bind_ok
        by (unfold Waitlist.countDocuments; now apply operation_up).
      reflexivity.
    + rewrite try_catch_throw with (e := ConnectionError) (db' := db2);
        [reflexivity|].
      rewrite Hrun. eapply bind_throw.
      unfold Waitlist.countDocuments. now apply operation_down.
  - rewrite Hw2. apply in_or_app. left. apply in_or_app. right. now left.
  - rewrite Hw2, Hw1, !length_app. cbn [List.length]. lia.
Qed.

(** Run on a new address and the sample store, with nothing before the
    insert: when another entry is inserted before the count is read, the
    answer counts 5 where the collection held 3; when the connection drops
    instead, the answer is 500 and the entry is stored. *)
Lemma count_is_read_after_insert_witness :
  let req := submit (JStr "Dan@Example.org") JUndefined 4000 in
  let dan :=
    WaitlistDoc.mk 4000%N "dan@example.org" 4000 "landing-page"
      (Some "203.0.113.7") (Some "curl/8.5.0") in
  let eve :=
    WaitlistDoc.mk 4001%N "eve@example.org" 4001 "landing-page" None None in
  (handle_post_waitlist_awaits req [] [WaitlistInsert eve] sample_store =
     (Responded (waitlist_created 5),
      mkDB true (waitlists sample_store ++ [dan; eve]) (thoughts sample_store))
   /\ In dan (waitlists sample_store ++ [dan; eve])
   /\ 4 <= 5)
  /\ (handle_post_waitlist_awaits req [] [Disconnected] sample_store =
        (Responded server_error_retry,
         mkDB false (waitlists sample_store ++ [dan]) (thoughts sample_store))
      /\ In dan (waitlists sample_store ++ [dan])
      /\ 4 <= 4).
Proof.
  intros req dan eve. split.
  - apply (count_is_read_after_insert req sample_store "Dan@Example.org" []
             [WaitlistInsert eve]); reflexivity.
  - apply (count_is_read_after_insert req sample_store "Dan@Example.org" []
             [Disconnected]); reflexivity.
Defined.


(** X10: thoughts have no uniqueness check: the same acceptable message, with
    the same email, submitted twice is answered 201 twice and stored twice;
    the waitlist is untouched. *)
Theorem thoughts_never_conflict
    (env : Env) (req1 req2 : Request) (db : DB) (m : string) :
  body_message req1 = JStr m ->
  body_message req2 = JStr m ->
  body_email req2 = body_email req1 ->
  10 <= String.length (JsString.trim m) ->
  email_passes (body_email req1) = true ->
  connected db = true ->
  exists db1 db2 e1 e2,
    handle PostThoughts env req1 db =
      (Responded (reply 201 true "Successfully saved your thoughts"), db1)
    /\ handle PostThoughts env req2 db1 =
      (Responded (reply 201 true "Successfully saved your thoughts"), db2)
    /\ thoughts db2 = (thoughts db ++ [e1; e2])%list
    /\ ThoughtsDoc.message e1 = ThoughtsDoc.message e2
    /\ ThoughtsDoc.email e1 = ThoughtsDoc.email e2
    /\ waitlists db2 = waitlists db.
Proof.
  intros H1 H2 He Hl Hp Hc.
  do 4 eexists. split; [now apply thoughts_message_long with (m := m)|].
  split.
  { apply thoughts_message_long with (m := m); trivial. now rewrite He. }
  cbn [thoughts waitlists]. rewrite <- app_assoc. cbn [app].
  split; [reflexivity|]. rewrite He. now repeat split.
Qed.

(** X11: a thoughts submission with a message of at least 10 characters and
    an email whose normal form is not empty and does not match the pattern is
    answered 400, [Invalid email format], before the database is used:
    nothing is stored, whether the connection is up or not. *)
Theorem thoughts_invalid_email_400
    (env : Env) (req : Request) (db : DB) (m s : string) :
  body_message req = JStr m ->
  10 <= String.length m ->
  body_email req = JStr s ->
  JsString.isEmpty (normalize_email s) = false ->
  RegExp.test RegExp.emailPattern (normalize_email s) = false ->
  handle PostThoughts env req db =
    (Responded (reply 400 false "Invalid email format"), db).
Proof.
  intros Hm Hl He Hn Hv. rewrite post_thoughts_cases, Hm, He.
  assert (Ht : truthy (JStr m) = true)
    by (destruct m; [cbn in Hl; lia | reflexivity]).
  rewrite Ht. cbn [negb length_lt].
  assert (Hl' : (String.length m <? 10)%nat = false) by (now apply Nat.ltb_ge).
  rewrite Hl'. cbn [is_string negb]. rewrite andb_false_r.
  cbn [email_passes]. now rewrite Hn, Hv.
Qed.

(** X12: a waitlist submission whose email is not a non-empty string is never
    stored: a falsy value (absent, [null], [false], 0, the empty string) is
    answered 400, [Email is required]; any other value that is not a string
    makes [toLowerCase] fail and is answered 500. *)
Theorem waitlist_malformed_email (env : Env) (req : Request) (db : DB) :
  is_string (body_email req) = false \/ body_email req = JStr EmptyString ->
  handle PostWaitlist env req db =
    (Responded (if truthy (body_email req)
                then reply 500 false "Server error. Please try again."
                else reply 400 false "Email is required"), db).
Proof.
  intros H. rewrite post_waitlist_cases.
  destruct (body_email req) as [| |b|n|s]; cbn [truthy negb]; try reflexivity.
  - now destruct b.
  - now destruct (n =? 0)%Z.
  - destruct H as [H|H]; [discriminate|]. injection H as ->. reflexivity.
Qed.


(** Run on a message the sample store already holds. *)
Lemma thoughts_never_conflict_witness :
  let req1 := submit (JStr "ada@example.org") (JStr "Ship it, please") 5000 in
  let req2 := submit (JStr "ada@example.org") (JStr "Ship it, please") 6000 in
  exists db1 db2 e1 e2,
    handle PostThoughts sample_env req1 sample_store =
      (Responded (reply 201 true "Successfully saved your thoughts"), db1)
    /\ handle PostThoughts sample_env req2 db1 =
      (Responded (reply 201 true "Successfully saved your thoughts"), db2)
    /\ thoughts db2 = (thoughts sample_store ++ [e1; e2])%list
    /\ ThoughtsDoc.message e1 = ThoughtsDoc.message e2
    /\ ThoughtsDoc.email e1 = ThoughtsDoc.email e2
    /\ waitlists db2 = waitlists sample_store.
Proof.
  intros req1 req2.
  apply (thoughts_never_conflict sample_env req1 req2 sample_store "Ship it, please");
    try reflexivity.
  vm_compute. lia.
Defined.

(** Run on an address without an at sign, the database out of reach. *)
Lemma thoughts_invalid_email_400_witness :
  let req := submit (JStr "ada.example.org") (JStr "Ship it, please") 5000 in
  handle PostThoughts sample_env req (mkDB false [] []) =
    (Responded (reply 400 false "Invalid email format"), mkDB false [] []).
Proof.
  intros req.
  apply (thoughts_invalid_email_400 sample_env req (mkDB false [] [])
           "Ship it, please" "ada.example.org"); try reflexivity.
  vm_compute. lia.
Defined.

(** Run on a number. *)
Lemma waitlist_malformed_email_witness :
  handle PostWaitlist sample_env (submit (JNum 42) JUndefined 1000) sample_store =
    (Responded (reply 500 false "Server error. Please try again."), sample_store).
Proof.
  apply (waitlist_malformed_email sample_env (submit (JNum 42) JUndefined 1000)
           sample_store).
  left. reflexivity.
Defined.

(** ** Startup, once more *)



(** [connectDB] stops at the first call that succeeds. *)
Lemma connectDB_first_success (reachable : nat -> bool) (j retries k : nat) :
  j <= retries ->
  reachable (k + j) = true ->
  (forall i, i < j -> reachable (k + i) = false) ->
  connectDB reachable k retries =
    (failed_attempts j ++ [Connect; LogConnected], true)%list.
Proof.
  revert retries k. induction j as [|j IH]; intros retries k Hj Hr Hf.
  - rewrite Nat.add_0_r in Hr. destruct retries; cbn [connectDB]; now rewrite Hr.
  - destruct retries as [|n]; [lia|]. cbn [connectDB].
    pose proof (Hf 0 ltac:(lia)) as H0. rewrite Nat.add_0_r in H0. rewrite H0.
    rewrite (IH n (S k)); [reflexivity | lia | |].
    + now replace (S k + j) with (k + S j) by lia.
    + intros i Hi. replace (S k + i) with (k + S i) by lia. apply Hf. lia.
Qed.

Lemma attempts_failed (j : nat) :
  attempts (failed_attempts j ++ [Connect; LogConnected]) = S j.
Proof.
  unfold attempts. induction j as [|j IH]; [reflexivity|].
  cbn [failed_attempts app filter is_connect List.length]. now rewrite IH.
Qed.

Lemma timers_failed (j : nat) :
  timers (failed_attempts j ++ [Connect; LogConnected]) = repeat 5000%Z j.
Proof.
  unfold timers. induction j as [|j IH]; [reflexivity|].
  cbn [failed_attempts app flat_map repeat]. now rewrite IH.
Qed.

(** X13: when the first call of [mongoose.connect] that succeeds is the
    [j]-th after the first one, [j] at most 3, startup is exactly [j] failed
    attempts, each followed by a 5000 ms timer, then the successful call:
    nothing is retried after a success, and the handlers find the connection
    up. *)
Theorem startup_stops_at_first_success (reachable : nat -> bool) (j : nat) :
  j <= 3 ->
  reachable j = true ->
  (forall i, i < j -> reachable i = false) ->
  startup reachable = (failed_attempts j ++ [Connect; LogConnected], true)%list
  /\ attempts (fst (startup reachable)) = S j
  /\ timers (fst (startup reachable)) = repeat 5000%Z j
  /\ forall ws ts, connected (after_startup reachable ws ts) = true.
Proof.
  intros Hj Hr Hf.
  assert (H : startup reachable =
              (failed_attempts j ++ [Connect; LogConnected], true)%list).
  { unfold startup. now apply connectDB_first_success. }
  split; [exact H|]. unfold after_startup. rewrite H. cbn [fst snd connected].
  split; [apply attempts_failed|]. split; [apply timers_failed | reflexivity].
Qed.

(** Run on a database that answers at the third call. *)
Lemma startup_stops_at_first_success_witness :
  let reachable := fun k => Nat.eqb k 2 in
  startup reachable =
    ([Connect; LogConnectionError; SetTimeout 5000;
      Connect; LogConnectionError; SetTimeout 5000;
      Connect; LogConnected], true)
  /\ attempts (fst (startup reachable)) = 3
  /\ timers (fst (startup reachable)) = [5000; 5000]%Z
  /\ forall ws ts, connected (after_startup reachable ws ts) = true.
Proof.
  intros reachable.
  apply (startup_stops_at_first_success reachable 2); [lia | reflexivity |].
  intros i Hi. destruct i as [|[|i]]; [reflexivity | reflexivity | lia].
Defined.

(** *** Documents are only ever appended *)

(** A request appends at most one document and touches nothing else. *)
Lemma handle_appends (r : Route) (env : Env) (req : Request) (db : DB) :
  exists ws ts,
    waitlists (snd (handle r env req db)) = (waitlists db ++ ws)%list
    /\ thoughts (snd (handle r env req db)) = (thoughts db ++ ts)%list
    /\ List.length ws + List.length ts <= 1.
Proof.
  destruct (is_post r) eqn:Hp.
  - destruct r; try discriminate.
    + rewrite post_waitlist_cases.
      repeat match goal with
      | |- context [if ?b then _ else _] => destruct b
      | |- context [match ?v with JStr _ => _ | _ => _ end] => destruct v
      end; cbn [snd waitlists thoughts];
      first [ exists [], []; rewrite !app_nil_r; cbn;
              split; [reflexivity|]; split; [reflexivity|]; lia
            | match goal with
              | |- context [(_ ++ [?d])%list] =>
                  first [ exists [d], [] | exists [], [d] ];
                  rewrite app_nil_r; cbn;
                  split; [reflexivity|]; split; [reflexivity|]; lia
              end ].
    + rewrite post_thoughts_cases.
      repeat match goal with
      | |- context [if ?b then _ else _] => destruct b
      | |- context [match ?v with JStr _ => _ | _ => _ end] => destruct v
      end; cbn [snd waitlists thoughts];
      first [ exists [], []; rewrite !app_nil_r; cbn;
              split; [reflexivity|]; split; [reflexivity|]; lia
            | match goal with
              | |- context [(_ ++ [?d])%list] =>
                  first [ exists [d], [] | exists [], [d] ];
                  rewrite app_nil_r; cbn;
                  split; [reflexivity|]; split; [reflexivity|]; lia
              end ].
  - rewrite handle_reads_only by assumption.
    exists [], []. rewrite !app_nil_r. cbn. repeat split; lia.
Qed.

(** X14: whatever requests are served, in any state of the database, the
    documents it held are still there, unchanged and in the same order, before
    the new ones; at most one document is added for each request. *)
Theorem documents_are_never_removed
    (env : Env) (reqs : list (Route * Request)) (db : DB) :
  exists ws ts,
    waitlists (serve env reqs db) = (waitlists db ++ ws)%list
    /\ thoughts (serve env reqs db) = (thoughts db ++ ts)%list
    /\ List.length ws + List.length ts <= List.length reqs.
Proof.
  revert db. induction reqs as [|[r req] rest IH]; intros db; cbn [serve].
  - exists [], []. rewrite !app_nil_r. cbn. repeat split; lia.
  - destruct (handle_appends r env req db) as (ws1 & ts1 & Hw1 & Ht1 & Hl1).
    destruct (IH (snd (handle r env req db))) as (ws2 & ts2 & Hw2 & Ht2 & Hl2).
    exists (ws1 ++ ws2)%list, (ts1 ++ ts2)%list.
    rewrite Hw2, Ht2, Hw1, Ht1, <- !app_assoc, !length_app.
    cbn [List.length]. repeat split; lia.
Qed.

(** *** The emails of stored thoughts *)

Lemma thoughts_email_new (id : ObjectId) (ne : option string) (m : string)
    (i u : option string) (t : Z) :
  Thoughts.validate (Thoughts.new id ne m i u t) = true ->
  thoughts_email_ok (Thoughts.new id ne m i u t).
Proof.
  unfold Thoughts.validate, thoughts_email_ok, Thoughts.new.
  cbn [ThoughtsDoc.email ThoughtsDoc.message].
  destruct ne as [e|]; cbn [option_map]; [|trivial].
  intros H. apply andb_true_iff in H. destruct H as [H _].
  apply andb_true_iff in H. destruct H as [H _].
  split; [apply normalize_email_idem|]. now apply orb_true_iff in H.
Qed.

Lemma thoughts_emails_save (d : ThoughtsDoc.t) :
  (Thoughts.validate d = true -> thoughts_email_ok d) ->
  preserves (fun db => Forall thoughts_email_ok (thoughts db)) (Thoughts.save d).
Proof.
  intros Hd db H. unfold Thoughts.save, operation.
  destruct (Thoughts.validate d); cbn [negb]; [|exact H].
  destruct (connected db); [|exact H].
  cbn [snd thoughts]. apply Forall_app. split; [exact H|].
  constructor; [now apply Hd | constructor].
Qed.

Lemma thoughts_emails_waitlist_save (d : WaitlistDoc.t) :
  preserves (fun db => Forall thoughts_email_ok (thoughts db)) (Waitlist.save d).
Proof.
  intros db H. unfold Waitlist.save.
  destruct (Waitlist.validate d); cbn [negb]; [|exact H].
  destruct (connected db); cbn [negb]; [|exact H].
  destruct (existsb _ _); exact H.
Qed.

Lemma thoughts_emails_route (r : Route) (env : Env) (req : Request) :
  preserves (fun db => Forall thoughts_email_ok (thoughts db)) (route_body r env req).
Proof.
  destruct (is_post r) eqn:Hp; [|now apply route_reads_only].
  destruct r; try discriminate; cbn [route_body].
  - unfold post_waitlist_body.
    apply preserves_if; [apply preserves_ret|].
    apply preserves_bind; [apply preserves_call_toLowerCase|]. intros lowered.
    apply preserves_bind; [apply preserves_read|]. intros [found|];
      [apply preserves_ret|].
    apply preserves_bind; [apply preserves_call_toLowerCase|]. intros lowered'.
    apply preserves_bind; [apply thoughts_emails_waitlist_save|]. intros _.
    apply preserves_bind; [apply preserves_read|]. intros n. apply preserves_ret.
  - unfold post_thoughts_body.
    apply preserves_if; [apply preserves_ret|].
    apply preserves_if; [apply preserves_ret|].
    apply preserves_bind.
    { apply preserves_if; [|apply preserves_ret].
      apply preserves_bind; [apply preserves_call_toLowerCase|].
      intros l. apply preserves_ret. }
    intros normalizedEmail. apply preserves_if; [apply preserves_ret|].
    apply preserves_bind; [apply preserves_call_trim|]. intros trimmed.
    apply preserves_bind;
      [apply thoughts_emails_save, thoughts_email_new | intros; apply preserves_ret].
Qed.

Lemma thoughts_emails_serve (env : Env) (reqs : list (Route * Request)) (db : DB) :
  Forall thoughts_email_ok (thoughts db) ->
  Forall thoughts_email_ok (thoughts (serve env reqs db)).
Proof.
  revert db. induction reqs as [|[r req] rest IH]; intros db Hdb; cbn [serve];
    [exact Hdb|].
  apply IH. pose proof (thoughts_emails_route r env req) as Hr.
  destruct r; cbn [handle route_body] in *;
    try (now apply (preserves_try_catch
                      (fun db => Forall thoughts_email_ok (thoughts db)))).
  exact Hdb.
Qed.

(** X15: whatever requests are served, starting from empty collections, the
    email of every stored thought is [null], or the empty string, or a string
    in normal form (lowercased, trimmed) that matches the email pattern. *)
Theorem thoughts_emails_are_clean
    (env : Env) (reqs : list (Route * Request)) (c : bool) :
  Forall thoughts_email_ok (thoughts (serve env reqs (mkDB c [] []))).
Proof. apply thoughts_emails_serve. constructor. Qed.

(** ** What the email pattern accepts *)

Section Matching.
Import RegExp.

Lemma append_is_empty (a b : string) :
  a ++ b = EmptyString -> a = EmptyString /\ b = EmptyString.
Proof. destruct a; simpl; [auto | discriminate]. Qed.

(** [nullable] tells whether the empty string is matched. *)
Lemma nullable_accepts (r : regex) : nullable r = true <-> accepts r EmptyString.
Proof.
  split.
  - induction r; simpl; intros H; try discriminate.
    + constructor.
    + apply andb_true_iff in H. destruct H as [H1 H2].
      change EmptyString with (EmptyString ++ EmptyString). constructor; auto.
    + apply orb_true_iff in H. destruct H as [H|H];
        [apply accepts_alt_l | apply accepts_alt_r]; auto.
    + constructor.
  - intros H. remember EmptyString as s eqn:E. 
    induction H; simpl; try reflexivity; try discriminate.
    + apply append_is_empty in E. destruct E as [-> ->].
      now rewrite IHaccepts1, IHaccepts2.
    + now rewrite IHaccepts.
    + rewrite IHaccepts by assumption. apply orb_true_r.
Qed.

(** The derivative by [c] matches [s] only if the expression matches [c]
    followed by [s]. *)
Lemma accepts_deriv_sound (c : ascii) (r : regex) (s : string) :
  accepts (deriv c r) s -> accepts r (String c s).
Proof.
  revert s. induction r; simpl; intros s H.
  - inversion H.
  - inversion H.
  - destruct (p c) eqn:E; inversion H; subst. now constructor.
  - destruct (nullable r1) eqn:N.
    + inversion H as [| | | ? ? ? H1 | ? ? ? H2 | |]; subst.
      * inversion H1 as [| |? ? s1 s2 Ha Hb| | | |]; subst.
        change (String c (s1 ++ s2)) with (String c s1 ++ s2).
        constructor; auto.
      * change (String c s) with (EmptyString ++ String c s).
        constructor; [now apply nullable_accepts | auto].
    + inversion H as [| |? ? s1 s2 Ha Hb| | | |]; subst.
      change (String c (s1 ++ s2)) with (String c s1 ++ s2).
      constructor; auto.
  - inversion H; subst; [apply accepts_alt_l | apply accepts_alt_r]; auto.
  - inversion H as [| |? ? s1 s2 Ha Hb| | | |]; subst.
    change (String c (s1 ++ s2)) with (String c s1 ++ s2).
    constructor; auto.
Qed.

(** And it matches [s] whenever the expression matches [c] followed by [s]. *)
Lemma accepts_deriv_complete (c : ascii) (r : regex) (s : string) :
  accepts r (String c s) -> accepts (deriv c r) s.
Proof.
  intros H. remember (String c s) as t eqn:E. revert s E.
  induction H as [ | p c0 Hp | r1 r2 s1 s2 H1 IH1 H2 IH2 | r1 r2 s0 H1 IH1
                 | r1 r2 s0 H2 IH2 | r0 | r0 s1 s2 H1 IH1 H2 IH2 ];
    intros s E; simpl.
  - discriminate.
  - injection E as -> <-. rewrite Hp. constructor.
  - destruct s1 as [|c1 s1]; simpl in E.
    + subst s2. apply nullable_accepts in H1. rewrite H1.
      apply accepts_alt_r. now apply IH2.
    + injection E as -> <-.
      destruct (nullable r1); [apply accepts_alt_l|];
        (constructor; [now apply IH1 | exact H2]).
  - apply accepts_alt_l. now apply IH1.
  - apply accepts_alt_r. now apply IH2.
  - discriminate.
  - destruct s1 as [|c1 s1]; simpl in E.
    + now apply IH2.
    + injection E as -> <-. constructor; [now apply IH1 | exact H2].
Qed.

(** The matcher by derivatives accepts the strings the expression matches,
    and no other. *)
Lemma test_accepts (r : regex) (s : string) : test r s = true <-> accepts r s.
Proof.
  revert r. induction s as [|c s IH]; intros r; simpl.
  - apply nullable_accepts.
  - rewrite IH. split; [apply accepts_deriv_sound | apply accepts_deriv_complete].
Qed.

Lemma accepts_cat_iff (r1 r2 : regex) (s : string) :
  accepts (Cat r1 r2) s <->
  exists s1 s2, s = s1 ++ s2 /\ accepts r1 s1 /\ accepts r2 s2.
Proof.
  split.
  - intros H. inversion H; subst. eauto.
  - intros (s1 & s2 & -> & H1 & H2). now constructor.
Qed.

Lemma accepts_char (c0 : ascii) (s : string) :
  accepts (Cls (Ascii.eqb c0)) s <-> s = String c0 EmptyString.
Proof.
  split.
  - intros H. inversion H as [|? c Hc| | | | |]; subst.
    apply Ascii.eqb_eq in Hc. now subst.
  - intros ->. constructor. apply Ascii.eqb_refl.
Qed.

Lemma accepts_star_cls (p : ascii -> bool) (s : string) :
  accepts (Star (Cls p)) s <-> JsString.all p s = true.
Proof.
  split.
  - intros H. remember (Star (Cls p)) as r eqn:E.
    induction H as [ | | | | | r0 | r0 s1 s2 H1 IH1 H2 IH2 ]; try discriminate.
    + reflexivity.
    + injection E as ->. inversion H1 as [|? c Hc| | | | |]; subst.
      simpl. rewrite Hc. now apply IH2.
  - induction s as [|c s IH]; simpl; intros H; [constructor|].
    apply andb_true_iff in H. destruct H as [Hc Hs].
    change (String c s) with (String c EmptyString ++ s).
    constructor; [now constructor | auto].
Qed.

Lemma accepts_plus_cls (p : ascii -> bool) (s : string) :
  accepts (Plus (Cls p)) s <->
  JsString.isEmpty s = false /\ JsString.all p s = true.
Proof.
  unfold Plus. rewrite accepts_cat_iff. split.
  - intros (s1 & s2 & -> & H1 & H2).
    inversion H1 as [|? c Hc| | | | |]; subst. apply accepts_star_cls in H2.
    simpl. now rewrite Hc, H2.
  - destruct s as [|c s]; simpl; intros [He H]; [discriminate|].
    apply andb_true_iff in H. destruct H as [Hc Hs].
    exists (String c EmptyString), s. split; [reflexivity|].
    split; [now constructor | now apply accepts_star_cls].
Qed.

(** X16: the email pattern accepts exactly the strings made of a local part,
    an at sign, a domain, a dot and an ending, each of the three parts one
    character or more with no white space and no at sign in it (so an accepted
    email holds one at sign, no white space, and a dot after the at sign that
    is neither first nor last there). *)
Theorem email_pattern_shape (s : string) :
  test emailPattern s = true <->
  exists a b c,
    s = a ++ "@" ++ b ++ "." ++ c
    /\ email_part a /\ email_part b /\ email_part c.
Proof.
  rewrite test_accepts. unfold emailPattern, email_part.
  rewrite accepts_cat_iff. split.
  - intros (a & t1 & -> & Ha & H1).
    apply accepts_cat_iff in H1. destruct H1 as (x & t2 & -> & Hx & H2).
    apply accepts_char in Hx. subst x.
    apply accepts_cat_iff in H2. destruct H2 as (b & t3 & -> & Hb & H3).
    apply accepts_cat_iff in H3. destruct H3 as (y & c & -> & Hy & Hc).
    apply accepts_char in Hy. subst y.
    apply accepts_plus_cls in Ha, Hb, Hc.
    exists a, b, c. now repeat split.
  - intros (a & b & c & -> & Ha & Hb & Hc).
    exists a, ("@" ++ b ++ "." ++ c). split; [reflexivity|].
    split; [now apply accepts_plus_cls|].
    apply accepts_cat_iff. exists "@", (b ++ "." ++ c). split; [reflexivity|].
    split; [now apply accepts_char|].
    apply accepts_cat_iff. exists b, ("." ++ c). split; [reflexivity|].
    split; [now apply accepts_plus_cls|].
    apply accepts_cat_iff. exists ".", c. split; [reflexivity|].
    split; [now apply accepts_char | now apply accepts_plus_cls].
Qed.

End Matching.

(** ** The waitlist export, read back *)

Section BareRows.
Import Rfc4180.

(** Inside a bare field, a text without quote, comma and line feed is read
    as it is. *)
Lemma parse_bare (s cur : string) (fields : list string)
    (records : list (list string)) (rest : string) :
  bare s = true ->
  parse Bare cur fields records (s ++ rest) =
  parse Bare (cur ++ s) fields records rest.
Proof.
  unfold bare. revert cur. induction s as [|c s IH]; intros cur H; simpl.
  - now rewrite append_empty_r.
  - simpl in H. apply andb_true_iff in H. destruct H as [Hc Hs].
    apply andb_true_iff in Hc. destruct Hc as [Hc H3].
    apply andb_true_iff in Hc. destruct Hc as [H1 H2].
    apply negb_true_iff in H1, H2, H3. rewrite H1, H2, H3.
    rewrite IH by assumption. unfold snoc. now rewrite append_assoc.
Qed.

(** A bare cell before a comma is one more field. *)
Lemma parse_bare_cell (s : string) (fields : list string)
    (records : list (list string)) (rest : string) :
  bare s = true ->
  parse FieldStart EmptyString fields records (s ++ String "," rest) =
  parse FieldStart EmptyString (fields ++ [s])%list records rest.
Proof.
  intros H. destruct s as [|c s]; [reflexivity|].
  unfold bare in H. simpl in H. apply andb_true_iff in H. destruct H as [Hc Hs].
  apply andb_true_iff in Hc. destruct Hc as [Hc H3].
  apply andb_true_iff in Hc. destruct Hc as [H1 H2].
  apply negb_true_iff in H1, H2, H3.
  cbn [append parse]. rewrite H1, H2, H3.
  rewrite parse_bare by exact Hs. reflexivity.
Qed.

(** A bare cell before a line feed ends the record. *)
Lemma parse_bare_last (s : string) (fields : list string)
    (records : list (list string)) (rest : string) :
  bare s = true ->
  parse FieldStart EmptyString fields records (s ++ String "010" rest) =
  parse FieldStart EmptyString [] (records ++ [fields ++ [s]])%list rest.
Proof.
  intros H. destruct s as [|c s]; [reflexivity|].
  unfold bare in H. simpl in H. apply andb_true_iff in H. destruct H as [Hc Hs].
  apply andb_true_iff in Hc. destruct Hc as [Hc H3].
  apply andb_true_iff in Hc. destruct Hc as [H1 H2].
  apply negb_true_iff in H1, H2, H3.
  cbn [append parse]. rewrite H1, H2, H3.
  rewrite parse_bare by exact Hs. reflexivity.
Qed.

(** A line of bare cells is read as these cells. *)
Lemma parse_bare_line (cells fields : list string)
    (records : list (list string)) (rest : string) :
  cells <> [] ->
  forallb bare cells = true ->
  parse FieldStart EmptyString fields records
    (comma_separated cells ++ LF ++ rest) =
  parse FieldStart EmptyString [] (records ++ [fields ++ cells])%list rest.
Proof.
  revert fields. induction cells as [|c cells IH]; intros fields Hne H;
    [contradiction|].
  cbn [forallb] in H. apply andb_true_iff in H. destruct H as [Hc H].
  destruct cells as [|c' cells].
  - cbn [comma_separated]. unfold LF. cbn [append].
    now apply parse_bare_last.
  - change (comma_separated (c :: c' :: cells))
      with (c ++ "," ++ comma_separated (c' :: cells)).
    rewrite append_assoc.
    change (("," ++ comma_separated (c' :: cells)) ++ LF ++ rest)
      with (String "," (comma_separated (c' :: cells) ++ LF ++ rest)).
    rewrite parse_bare_cell by exact Hc.
    rewrite IH by (trivial; discriminate).
    now rewrite <- app_assoc.
Qed.

Lemma waitlist_row_cells (env : Env) (d : WaitlistDoc.t) (rest : string) :
  waitlist_row env d ++ rest = comma_separated (waitlist_cells env d) ++ LF ++ rest.
Proof.
  unfold waitlist_row, waitlist_cells. cbn [comma_separated].
  repeat (rewrite !append_assoc; cbn [append]). reflexivity.
Qed.

Lemma parse_waitlist_rows (env : Env) (cells : WaitlistDoc.t -> list string)
    (docs : list WaitlistDoc.t) (records : list (list string)) :
  (forall d rest, In d docs ->
     waitlist_row env d ++ rest = comma_separated (cells d) ++ LF ++ rest) ->
  (forall d, In d docs -> cells d <> [] /\ forallb bare (cells d) = true) ->
  parse FieldStart EmptyString [] records
    (String.concat EmptyString (map (waitlist_row env) docs)) =
  Some (records ++ map cells docs)%list.
Proof.
  revert records. induction docs as [|d docs IH]; intros records Hrow Hc.
  - simpl. now rewrite app_nil_r.
  - cbn [map]. rewrite concat_cons, Hrow by (now left).
    destruct (Hc d (or_introl eq_refl)) as [Hne Hb].
    rewrite parse_bare_line, IH by (auto using in_cons).
    now rewrite <- app_assoc.
Qed.

(** X17: the waitlist export copies its cells bare.  When no cell (email,
    date as the host renders it, source, address) holds a double quote, a
    comma or a line feed, the export reads back as the header and, latest
    first, the four cells of every stored entry. *)
Theorem waitlist_export_reads_back (env : Env) (req : Request) (db : DB) :
  strict_eq (x_api_key req) (ADMIN_API_KEY env) = true ->
  connected db = true ->
  forallb (fun d => forallb bare (waitlist_cells env d)) (waitlists db) = true ->
  exists csv docs,
    handle GetWaitlistExport env req db =
      (Responded (csv_response "waitlist.csv" csv), db)
    /\ latest_first WaitlistDoc.timestamp (waitlists db) docs
    /\ read csv =
         Some (["Email"; "Signup Date"; "Source"; "IP Address"]
               :: map (waitlist_cells env) docs).
Proof.
  intros Hk Hc Hp.
  exists (build_csv waitlist_header (waitlist_row env)
            (sort_desc WaitlistDoc.timestamp (waitlists db))).
  exists (sort_desc WaitlistDoc.timestamp (waitlists db)).
  split; [|split; [apply latest_first_sort|]].
  - unfold handle, get_waitlist_export_body.
    rewrite admin_guard_pass by assumption.
    apply try_catch_ok. erewrite bind_ok; [reflexivity|].
    unfold Waitlist.find_sorted. now apply operation_up.
  - rewrite build_csv_concat. unfold read, waitlist_header. simpl.
    rewrite (parse_waitlist_rows env (waitlist_cells env)); [reflexivity | |].
    + intros d rest _. apply waitlist_row_cells.
    + intros d Hd. split; [discriminate|].
      rewrite forallb_forall in Hp. apply Hp.
      eapply Permutation_in; [apply sort_desc_perm | exact Hd].
Qed.

(** X18: on a host that renders a date with one comma in it (as the en-US
    locale does, day before the comma and time after), every line of the
    waitlist export reads back as five fields under a header of four: the date
    is split in two, and source and address stand one column to the right. *)
Theorem waitlist_export_splits_dates
    (env : Env) (req : Request) (db : DB) (day time : Z -> string) :
  strict_eq (x_api_key req) (ADMIN_API_KEY env) = true ->
  connected db = true ->
  (forall t, toLocaleString env t = day t ++ "," ++ time t) ->
  forallb (fun d =>
             forallb bare
               [ WaitlistDoc.email d; day (WaitlistDoc.timestamp d);
                 time (WaitlistDoc.timestamp d); WaitlistDoc.source d;
                 template (WaitlistDoc.ipAddress d) ])
          (waitlists db) = true ->
  exists csv docs,
    handle GetWaitlistExport env req db =
      (Responded (csv_response "waitlist.csv" csv), db)
    /\ latest_first WaitlistDoc.timestamp (waitlists db) docs
    /\ read csv =
         Some (["Email"; "Signup Date"; "Source"; "IP Address"]
               :: map (fun d =>
                         [ WaitlistDoc.email d; day (WaitlistDoc.timestamp d);
                           time (WaitlistDoc.timestamp d); WaitlistDoc.source d;
                           template (WaitlistDoc.ipAddress d) ]) docs).
Proof.
  intros Hk Hc Hdate Hp.
  exists (build_csv waitlist_header (waitlist_row env)
            (sort_desc WaitlistDoc.timestamp (waitlists db))).
  exists (sort_desc WaitlistDoc.timestamp (waitlists db)).
  split; [|split; [apply latest_first_sort|]].
  - unfold handle, get_waitlist_export_body.
    rewrite admin_guard_pass by assumption.
    apply try_catch_ok. erewrite bind_ok; [reflexivity|].
    unfold Waitlist.find_sorted. now apply operation_up.
  - rewrite build_csv_concat. unfold read, waitlist_header. simpl.
    rewrite (parse_waitlist_rows env
               (fun d => [ WaitlistDoc.email d; day (WaitlistDoc.timestamp d);
                           time (WaitlistDoc.timestamp d); WaitlistDoc.source d;
                           template (WaitlistDoc.ipAddress d) ]));
      [reflexivity | |].
    + intros d rest _. unfold waitlist_row. rewrite Hdate.
      cbn [comma_separated].
      repeat (rewrite !append_assoc; cbn [append]). reflexivity.
    + intros d Hd. split; [discriminate|].
      rewrite forallb_forall in Hp. apply Hp.
      eapply Permutation_in; [apply sort_desc_perm | exact Hd].
Qed.

End BareRows.

(** Run on the sample store, on a host that renders dates without a comma. *)
Lemma waitlist_export_reads_back_witness :
  exists csv docs,
    handle GetWaitlistExport plain_date_env (browse (Some "s3cret")) sample_store =
      (Responded (csv_response "waitlist.csv" csv), sample_store)
    /\ latest_first WaitlistDoc.timestamp (waitlists sample_store) docs
    /\ Rfc4180.read csv =
         Some (["Email"; "Signup Date"; "Source"; "IP Address"]
               :: map (waitlist_cells plain_date_env) docs).
Proof.
  apply (waitlist_export_reads_back plain_date_env (browse (Some "s3cret"))
           sample_store); reflexivity.
Defined.

(** Run on the sample store, on a host that renders dates the en-US way. *)
Lemma waitlist_export_splits_dates_witness :
  exists csv docs,
    handle GetWaitlistExport sample_env (browse (Some "s3cret")) sample_store =
      (Responded (csv_response "waitlist.csv" csv), sample_store)
    /\ latest_first WaitlistDoc.timestamp (waitlists sample_store) docs
    /\ Rfc4180.read csv =
         Some (["Email"; "Signup Date"; "Source"; "IP Address"]
               :: map (fun d =>
                         [ WaitlistDoc.email d; "11/2/2026"; " 10:20:00 PM";
                           WaitlistDoc.source d;
                           template (WaitlistDoc.ipAddress d) ]) docs).
Proof.
  apply (waitlist_export_splits_dates sample_env (browse (Some "s3cret"))
           sample_store (fun _ => "11/2/2026") (fun _ => " 10:20:00 PM"));
    reflexivity.
Defined.

(** ** Stored emails, listed thoughts, lasting registrations *)




Lemma toLowerChar_not_upper (c : ascii) : isUpperCase (JsString.toLowerChar c) = false.
Proof. destruct c as [[] [] [] [] [] [] [] []]; reflexivity. Qed.

Lemma toLowerCase_not_upper (s : string) :
  JsString.all (fun c => negb (isUpperCase c)) (JsString.toLowerCase s) = true.
Proof.
  induction s as [|c s IH]; simpl; [reflexivity|].
  now rewrite toLowerChar_not_upper, IH.
Qed.

Lemma all_trimStart (p : ascii -> bool) (s : string) :
  JsString.all p s = true -> JsString.all p (JsString.trimStart s) = true.
Proof.
  induction s as [|c s IH]; simpl; [reflexivity|].
  intros H. destruct (JsString.isWhiteSpace c); [|exact H].
  apply andb_true_iff in H. now apply IH.
Qed.

Lemma all_trimEnd (p : ascii -> bool) (s : string) :
  JsString.all p s = true -> JsString.all p (JsString.trimEnd s) = true.
Proof.
  induction s as [|c s IH]; simpl; [reflexivity|].
  intros H. apply andb_true_iff in H. destruct H as [Hc Hs].
  destruct (JsString.isWhiteSpace c && JsString.isEmpty (JsString.trimEnd s));
    simpl; [reflexivity|]. now rewrite Hc, IH.
Qed.

Lemma all_and (p q : ascii -> bool) (s : string) :
  JsString.all p s = true -> JsString.all q s = true ->
  JsString.all (fun c => p c && q c) s = true.
Proof.
  induction s as [|c s IH]; simpl; [reflexivity|].
  intros Hp Hq. apply andb_true_iff in Hp, Hq.
  destruct Hp as [-> Hp], Hq as [-> Hq]. now rewrite IH.
Qed.

(** A string in normal form that matches the pattern has no capital letter
    and no white space. *)
Lemma normal_email_dense (e : string) :
  normalize_email e = e ->
  RegExp.test RegExp.emailPattern e = true ->
  lower_and_dense e = true.
Proof.
  intros Hn Hv. unfold lower_and_dense. apply all_and.
  - rewrite <- Hn. unfold normalize_email, JsString.trim.
    apply all_trimEnd, all_trimStart, toLowerCase_not_upper.
  - now apply test_within with (r := RegExp.emailPattern);
      [apply emailPattern_within|].
Qed.

Lemma store_ok_serve (env : Env) (reqs : list (Route * Request)) (db : DB) :
  store_ok db -> store_ok (serve env reqs db).
Proof.
  revert db. induction reqs as [|[r req] rest IH]; intros db H; cbn [serve];
    [exact H|].
  apply IH. now apply store_ok_handle.
Qed.

(** X19: whatever requests are served, starting from empty collections, no
    stored email, of a waitlist entry or of a thought, holds a capital letter
    or a white space character. *)
Theorem stored_emails_are_lowercase
    (env : Env) (reqs : list (Route * Request)) (c : bool) :
  let db := serve env reqs (mkDB c [] []) in
  forallb (fun d => lower_and_dense (WaitlistDoc.email d)) (waitlists db) = true
  /\ forallb (fun d => match ThoughtsDoc.email d with
                       | Some e => lower_and_dense e
                       | None => true
                       end) (thoughts db) = true.
Proof.
  intros db. split.
  - assert (H : store_ok db).
    { apply store_ok_serve. repeat split; constructor. }
    destruct H as (_ & Hw & _). apply forallb_forall. intros d Hd.
    rewrite Forall_forall in Hw. destruct (Hw d Hd) as [Hv Hn].
    apply normal_email_dense; [exact Hn|].
    unfold Waitlist.validate in Hv. now apply andb_true_iff in Hv.
  - assert (H : Forall thoughts_email_ok (thoughts db))
      by (apply thoughts_emails_serve; constructor).
    apply forallb_forall. intros d Hd. rewrite Forall_forall in H.
    specialize (H d Hd). unfold thoughts_email_ok in H.
    destruct (ThoughtsDoc.email d) as [e|]; [|reflexivity].
    destruct H as [Hn [He|Hv]].
    + destruct e; [reflexivity | discriminate].
    + now apply normal_email_dense.
Qed.

(** What an answer 201 of POST /api/thoughts says of the request and of the
    database. *)
Lemma thoughts_201_inv (env : Env) (req : Request) (db db' : DB) (resp : Response) :
  handle PostThoughts env req db = (Responded resp, db') ->
  status resp = 201 ->
  exists m,
    body_message req = JStr m
    /\ connected db = true
    /\ 10 <= String.length (JsString.trim m)
    /\ email_passes (body_email req) = true
    /\ db' = mkDB true (waitlists db) (thoughts db ++ [thoughts_entry req m]).
Proof.
  intros Hh Hs. rewrite post_thoughts_cases in Hh.
  destruct (negb (truthy (body_message req)));
    [injection Hh as <- _; discriminate|].
  destruct (length_lt (body_message req) 10);
    [injection Hh as <- _; discriminate|].
  destruct (truthy (body_email req) && negb (is_string (body_email req)));
    [injection Hh as <- _; discriminate|].
  destruct (email_passes (body_email req)) eqn:Hp; cbn [negb] in Hh;
    [|injection Hh as <- _; discriminate].
  destruct (body_message req) as [| |b|n|m];
    try (injection Hh as <- _; discriminate).
  destruct ((10 <=? String.length (JsString.trim m))%nat && connected db) eqn:E;
    [|injection Hh as <- _; discriminate].
  apply andb_true_iff in E. destruct E as [El Ec]. apply Nat.leb_le in El.
  injection Hh as _ <-. exists m. now repeat split.
Qed.

(** X20: after a thoughts submission answered 201, GET /api/thoughts/count
    answers one more than the collection held, and the admin listing (with the
    right key) holds an entry with the identifier of the new document, the
    message trimmed, the email lowercased and trimmed ([null] when none was
    given), the time of the request and the source [landing-page]. *)
Theorem submitted_thought_is_listed
    (env : Env) (req req' : Request) (db db' : DB) (resp : Response) (m : string) :
  body_message req = JStr m ->
  handle PostThoughts env req db = (Responded resp, db') ->
  status resp = 201 ->
  strict_eq (x_api_key req') (ADMIN_API_KEY env) = true ->
  handle GetThoughtsCount env req' db' =
    (Responded (mkResponse 200 []
       (Json true None (Some (S (List.length (thoughts db)))) None)), db')
  /\ exists views,
       handle GetThoughtsAll env req' db' =
         (Responded (mkResponse 200 []
            (Json true None (Some (S (List.length (thoughts db))))
                  (Some (ThoughtsData views)))), db')
       /\ In (Thoughts.mkView (object_id req) (normalized_email (body_email req))
                (JsString.trim m) (now req) "landing-page") views.
Proof.
  intros Hm Hh Hs Hk.
  destruct (thoughts_201_inv env req db db' resp Hh Hs)
    as (m' & Hm' & _ & _ & Hp & ->).
  rewrite Hm in Hm'. injection Hm' as <-.
  assert (Hlen : List.length (thoughts db ++ [thoughts_entry req m])
                 = S (List.length (thoughts db)))
    by (rewrite length_app; cbn [List.length]; apply Nat.add_1_r).
  split.
  - unfold handle.
    rewrite (count_cases _ (fun d => List.length (thoughts d))) by reflexivity.
    cbn [connected thoughts]. now rewrite Hlen.
  - exists (map Thoughts.select
              (sort_desc ThoughtsDoc.timestamp (thoughts db ++ [thoughts_entry req m]))).
    split.
    + unfold handle, get_thoughts_all_body. rewrite admin_guard_pass by assumption.
      apply try_catch_ok.
      erewrite bind_ok
        by (unfold Thoughts.find_sorted; apply operation_up; reflexivity).
      cbn [fst snd thoughts]. rewrite length_map.
      rewrite (Permutation_length (sort_desc_perm _ _ _)). now rewrite Hlen.
    + apply in_map_iff. exists (thoughts_entry req m). split.
      * unfold Thoughts.select, thoughts_entry, Thoughts.new.
        cbn [ThoughtsDoc._id ThoughtsDoc.email ThoughtsDoc.message
             ThoughtsDoc.timestamp ThoughtsDoc.source].
        rewrite trim_idem. f_equal.
        destruct (body_email req) as [| |b|n|s]; try reflexivity.
        cbn [normalized_email]. destruct (JsString.isEmpty s); [reflexivity|].
        cbn [option_map]. now rewrite normalize_email_idem.
      * eapply Permutation_in; [apply Permutation_sym, sort_desc_perm|].
        apply in_or_app. right. now left.
Qed.

(** Run on a padded message and a padded address, on the sample store. *)
Lemma submitted_thought_is_listed_witness :
  let req := submit (JStr "Eve@Example.org ") (JStr "  Dark mode would be nice ") 7000 in
  let db' := snd (handle PostThoughts sample_env req sample_store) in
  handle GetThoughtsCount sample_env (browse (Some "s3cret")) db' =
    (Responded (mkResponse 200 [] (Json true None (Some 3) None)), db')
  /\ exists views,
       handle GetThoughtsAll sample_env (browse (Some "s3cret")) db' =
         (Responded (mkResponse 200 []
            (Json true None (Some 3) (Some (ThoughtsData views)))), db')
       /\ In (Thoughts.mkView 7000%N (Some "eve@example.org")
                "Dark mode would be nice" 7000 "landing-page") views.
Proof.
  intros req db'.
  apply (submitted_thought_is_listed sample_env req (browse (Some "s3cret"))
           sample_store db' (reply 201 true "Successfully saved your thoughts")
           "  Dark mode would be nice "); reflexivity.
Defined.

(** *** Once registered, always registered *)





